(** * The chat agent's tools (src/tools.ts), embedded and verified

    The file follows tools.ts from top to bottom: the values a tool
    handles (strings, JSON, errors), the host the tools run on (console,
    environment, network, the agent session), the executors, the exported
    registry [tools] and the table [executions] of confirmed executors. *)

From Stdlib Require Import String Ascii List Bool Arith Lia DecimalString.
Import ListNotations.
Local Open Scope string_scope.
#[local] Set Warnings "-register-all".

(** ** Strings

    A JavaScript string is kept as the byte string of its UTF-8 text.
    On ASCII text [String.length] and [substring] are JavaScript's
    [length] and [substring]. *)

Definition dquote : string := String (ascii_of_nat 34) EmptyString.

Definition is_empty (s : string) : bool :=
  match s with EmptyString => true | String _ _ => false end.

Fixpoint join (sep : string) (l : list string) : string :=
  match l with
  | [] => ""
  | [x] => x
  | x :: rest => x ++ sep ++ join sep rest
  end.

(** Percent-encoding, as encodeURIComponent and URLSearchParams do it:
    every byte outside the kept set becomes %XX, in upper-case hex. *)

Definition hex_digit (n : nat) : ascii :=
  if (n <? 10)%nat then ascii_of_nat (48 + n) else ascii_of_nat (55 + n).

Definition percent_byte (c : ascii) : string :=
  let n := nat_of_ascii c in
  String "%"%char (String (hex_digit (n / 16)) (String (hex_digit (n mod 16)) EmptyString)).

Definition is_alnum (c : ascii) : bool :=
  let n := nat_of_ascii c in
  (((48 <=? n) && (n <=? 57)) || ((65 <=? n) && (n <=? 90)) || ((97 <=? n) && (n <=? 122)))%nat.

Definition in_chars (c : ascii) (set : string) : bool :=
  existsb (Ascii.eqb c) (list_ascii_of_string set).

(** encodeURIComponent keeps A-Z a-z 0-9 - _ . ! ~ * ' ( ) *)
Definition uri_component_kept (c : ascii) : bool :=
  is_alnum c || in_chars c "-_.!~*'()".

Fixpoint encodeURIComponent (s : string) : string :=
  match s with
  | EmptyString => EmptyString
  | String c rest =>
      (if uri_component_kept c then String c EmptyString else percent_byte c)
      ++ encodeURIComponent rest
  end.

(** URLSearchParams.toString: the application/x-www-form-urlencoded
    serializer keeps A-Z a-z 0-9 * - . _ and writes a space as +. *)
Definition form_kept (c : ascii) : bool :=
  is_alnum c || in_chars c "*-._".

Fixpoint form_encode (s : string) : string :=
  match s with
  | EmptyString => EmptyString
  | String c rest =>
      (if form_kept c then String c EmptyString
       else if Ascii.eqb c " "%char then "+"
       else percent_byte c)
      ++ form_encode rest
  end.

Definition URLSearchParams_toString (params : list (string * string)) : string :=
  join "&" (map (fun kv => form_encode (fst kv) ++ "=" ++ form_encode (snd kv)) params).

(** ** Errors and completions *)

(** A thrown value: an Error object with its name and message. *)
Record JSError : Type := mkError { error_name : string; error_message : string }.

Definition Error (msg : string) : JSError := mkError "Error" msg.
Definition TypeError (msg : string) : JSError := mkError "TypeError" msg.

(** Error.prototype.toString, which a template literal applies to a caught
    error. *)
Definition error_to_string (e : JSError) : string :=
  if is_empty (error_name e) then error_message e
  else if is_empty (error_message e) then error_name e
  else error_name e ++ ": " ++ error_message e.

(** How an evaluation ends: with a value, or with a thrown error. *)
Inductive Completion (A : Type) : Type :=
| Normal (a : A)
| Throw (e : JSError).
Arguments Normal {A} a.
Arguments Throw {A} e.

(** A promise, by how it settles. *)
Inductive Promise (A : Type) : Type :=
| Fulfilled (a : A)
| Rejected (e : JSError).
Arguments Fulfilled {A} a.
Arguments Rejected {A} e.

(** ** JSON values, over the host's numbers *)

Inductive Json (number : Type) : Type :=
| JNull
| JBool (b : bool)
| JNum (n : number)
| JStr (s : string)
| JArr (items : list (Json number))
| JObj (fields : list (string * Json number)).
Arguments JNull {number}.
Arguments JBool {number} b.
Arguments JNum {number} n.
Arguments JStr {number} s.
Arguments JArr {number} items.
Arguments JObj {number} fields.

(** What the JavaScript host supplies: its numbers (IEEE doubles) and
    dates with their conversions, and JSON.stringify. *)
Class Host : Type := {
  number : Type;
  Date : Type;
  number_of_nat : nat -> number;
  number_to_string : number -> string;
  number_truthy : number -> bool;
  date_to_string : Date -> string;
  JSON_stringify : Json number -> string;
  (* a count is falsy exactly when it is 0 *)
  number_truthy_of_nat : forall n, number_truthy (number_of_nat n) = negb (n =? 0)%nat;
}.

(** ** JSON values as JavaScript reads them

    A value that may be [undefined] is an [option (Json number)]. *)

Section Values.
Context {host : Host}.

Definition Value : Type := option (Json number).

(** Object property lookup; of a repeated key JSON.parse keeps the last. *)
Fixpoint obj_get (k : string) (fields : list (string * Json number)) : Value :=
  match fields with
  | [] => None
  | (k', v) :: rest =>
      match obj_get k rest with
      | Some later => Some later
      | None => if k' =? k then Some v else None
      end
  end.

Definition truthy (v : Value) : bool :=
  match v with
  | None => false
  | Some JNull => false
  | Some (JBool b) => b
  | Some (JNum n) => number_truthy n
  | Some (JStr s) => negb (is_empty s)
  | Some (JArr _) => true
  | Some (JObj _) => true
  end.

(** [v.k] for the keys the tools read: "length", "id", "data". Reading a
    property of undefined or null throws (the message is V8's). *)
Definition get_prop (v : Value) (k : string) : Completion Value :=
  match v with
  | None =>
      Throw (TypeError ("Cannot read properties of undefined (reading '" ++ k ++ "')"))
  | Some JNull =>
      Throw (TypeError ("Cannot read properties of null (reading '" ++ k ++ "')"))
  | Some (JObj fields) => Normal (obj_get k fields)
  | Some (JArr items) =>
      Normal (if k =? "length" then Some (JNum (number_of_nat (List.length items))) else None)
  | Some (JStr s) =>
      Normal (if k =? "length" then Some (JNum (number_of_nat (String.length s))) else None)
  | Some (JBool _) => Normal None
  | Some (JNum _) => Normal None
  end.

(** [v[0]]. Of a string it is the one-character string at the front. *)
Definition index0 (v : Json number) : Value :=
  match v with
  | JArr items => nth_error items 0
  | JObj fields => obj_get "0" fields
  | JStr (String c _) => Some (JStr (String c EmptyString))
  | _ => None
  end.

(** The values of a list of completions, or the first error thrown. *)
Fixpoint sequence {A} (l : list (Completion A)) : Completion (list A) :=
  match l with
  | [] => Normal []
  | Throw e :: _ => Throw e
  | Normal a :: rest =>
      match sequence rest with
      | Normal others => Normal (a :: others)
      | Throw e => Throw e
      end
  end.

(** String(v), as a template literal converts a value. An array is its
    elements joined by commas, null elements as the empty string. An
    object is "[object Object]" through Object.prototype.toString; an own
    "toString" key of a parsed object holds no function, and then no
    conversion is left: a TypeError is thrown (the message is V8's). *)
Fixpoint to_string (v : Json number) : Completion string :=
  match v with
  | JNull => Normal "null"
  | JBool b => Normal (if b then "true" else "false")
  | JNum n => Normal (number_to_string n)
  | JStr s => Normal s
  | JArr items =>
      match sequence (map (fun x => match x with
                                    | JNull => Normal ""
                                    | _ => to_string x
                                    end) items) with
      | Normal parts => Normal (join "," parts)
      | Throw e => Throw e
      end
  | JObj fields =>
      match obj_get "toString" fields with
      | Some _ => Throw (TypeError "Cannot convert object to primitive value")
      | None => Normal "[object Object]"
      end
  end.

Definition value_to_string (v : Value) : Completion string :=
  match v with
  | None => Normal "undefined"
  | Some j => to_string j
  end.

End Values.

(** ** The schedule descriptors of the agent session

    The Chat class that owns the schedule store is in server.ts, which is
    not among the sources; tools.ts only calls it. What it stores is taken
    from section 3 of the specification. *)

(** Modelled from the spec: the kind of a ScheduleDescriptor. *)
Inductive Kind : Type := ONE_SHOT | DELAYED | RECURRING_CRON.

(** Modelled from the spec: the kind that a value of when.type asks for,
    one-shot for "scheduled", delayed for "delayed", recurring for "cron"
    (sections 3 and 6); "no-schedule" and any other text ask for none. *)
Definition kind_of_type (type : string) : option Kind :=
  if type =? "scheduled" then Some ONE_SHOT
  else if type =? "delayed" then Some DELAYED
  else if type =? "cron" then Some RECURRING_CRON
  else None.

Section Descriptors.
Context {host : Host}.

(** Modelled from the spec: the trigger of a ScheduleDescriptor, an
    absolute timestamp, a delay in seconds or a cron expression. *)
Inductive Trigger : Type :=
| AbsoluteTimestamp (date : Date)
| DelaySeconds (seconds : number)
| CronExpression (cron : string).

(** Modelled from the spec: the ScheduleDescriptor (the Schedule objects
    of the Chat session, whose class is not among the sources). *)
Record ScheduleDescriptor : Type := {
  id : string;
  kind : Kind;
  trigger : Trigger;
  actionName : string;
  payload : string;
}.

(** The first argument of [agent.schedule]: the field of [when] that the
    tool selected, which is undefined when the field was left out. *)
Inductive ScheduleInput : Type :=
| InUndefined
| InDate (date : Date)
| InNumber (n : number)
| InString (s : string).

(** Modelled from the spec: the kind whose trigger shape a first argument
    of [agent.schedule] has (section 3): a Date is an absolute timestamp,
    a number a delay in seconds, a string a cron expression. undefined has
    the shape of no kind. *)
Definition trigger_kind (input : ScheduleInput) : option Kind :=
  match input with
  | InUndefined => None
  | InDate _ => Some ONE_SHOT
  | InNumber _ => Some DELAYED
  | InString _ => Some RECURRING_CRON
  end.

(** String(input), for the tool's result text. *)
Definition input_to_string (input : ScheduleInput) : string :=
  match input with
  | InUndefined => "undefined"
  | InDate d => date_to_string d
  | InNumber n => number_to_string n
  | InString s => s
  end.

End Descriptors.

(** ** The world a tool runs in *)

Section World.
(** [Store] is the state of the session's schedule store. *)
Context {host : Host} {Store : Type}.

(** fetch's argument: the URL and the init object's fields. *)
Record Request : Type := {
  url : string;
  method : option string;         (* left out by the GET requests *)
  headers : list (string * string);
  body : option string;
}.

(** The response fetch resolves to, with what awaiting [text()] and
    [json()] gives. *)
Record Response : Type := {
  ok : bool;
  status : number;
  statusText : string;
  text : Completion string;
  json : Completion (Json number);
}.

(** The agent the tools reach through getCurrentAgent: the three
    operations tools.ts calls on it, as functions of the store. Each gives
    how the call itself completes and the store after it. [schedule] and
    [cancelSchedule] are asynchronous: the call hands back a promise (of
    the schedule's id, for [schedule]), and what went wrong inside arrives
    as its rejection. [getSchedules] hands back the array, or a missing
    value. *)
Record Agent : Type := {
  schedule :
    ScheduleInput -> string -> string -> Store -> Completion (Promise string) * Store;
  getSchedules : Store -> Completion (option (list ScheduleDescriptor)) * Store;
  cancelSchedule : string -> Store -> Completion (Promise unit) * Store;
}.

Inductive ConsoleArg : Type :=
| CStr (s : string)
| CNum (n : number)
| CErr (e : JSError)
| CObj (fields : list (string * ConsoleArg)).

(** What a tool does to the outside, in the order it does it. *)
Inductive Event : Type :=
| ConsoleLog (args : list ConsoleArg)
| ConsoleError (args : list ConsoleArg)
| Fetch (request : Request)
| Schedule (input : ScheduleInput) (callback : string) (payload : string)
| GetSchedules
| CancelSchedule (taskId : string).

Record World : Type := {
  KLAVIYO_API_KEY : option string;   (* process.env.KLAVIYO_API_KEY *)
  network : list Event -> Request -> Completion Response;
  agent : option Agent;              (* getCurrentAgent().agent *)
  store : Store;
  trace : list Event;
}.

Definition emit (e : Event) (w : World) : World :=
  {| KLAVIYO_API_KEY := KLAVIYO_API_KEY w;
     network := network w;
     agent := agent w;
     store := store w;
     trace := (trace w ++ [e])%list |}.

Definition with_store (s : Store) (w : World) : World :=
  {| KLAVIYO_API_KEY := KLAVIYO_API_KEY w;
     network := network w;
     agent := agent w;
     store := s;
     trace := trace w |}.

(** *** Executions: state passing with thrown errors *)

Definition Exec (A : Type) : Type := World -> Completion A * World.

Definition ret {A} (a : A) : Exec A := fun w => (Normal a, w).

Definition throw {A} (e : JSError) : Exec A := fun w => (Throw e, w).

Definition bind {A B} (m : Exec A) (k : A -> Exec B) : Exec B :=
  fun w =>
    match m w with
    | (Normal a, w') => k a w'
    | (Throw e, w') => (Throw e, w')
    end.

(** try { body } catch (error) { handler } *)
Definition try_catch {A} (body : Exec A) (handler : JSError -> Exec A) : Exec A :=
  fun w =>
    match body w with
    | (Normal a, w') => (Normal a, w')
    | (Throw e, w') => handler e w'
    end.

Definition lift {A} (c : Completion A) : Exec A := fun w => (c, w).

(** await p: the value of a fulfilled promise; a rejection is thrown. *)
Definition await {A} (p : Promise A) : Exec A :=
  match p with
  | Fulfilled a => ret a
  | Rejected e => throw e
  end.

Definition console_log (args : list ConsoleArg) : Exec unit :=
  fun w => (Normal tt, emit (ConsoleLog args) w).

Definition console_error (args : list ConsoleArg) : Exec unit :=
  fun w => (Normal tt, emit (ConsoleError args) w).

(** await fetch(url, init) *)
Definition fetch (request : Request) : Exec Response :=
  fun w => (network w (trace w) request, emit (Fetch request) w).

(** process.env.KLAVIYO_API_KEY || '' *)
Definition api_key (w : World) : string :=
  match KLAVIYO_API_KEY w with
  | Some k => k
  | None => ""
  end.

Definition env_KLAVIYO_API_KEY_or_empty : Exec string :=
  fun w => (Normal (api_key w), w).

Definition getCurrentAgent : Exec (option Agent) :=
  fun w => (Normal (agent w), w).

(** A method call on [agent!]: with no current agent the property read
    throws; otherwise the call is recorded and runs on the store. *)
Definition call_agent {A} (a : option Agent) (method_name : string) (e : Event)
    (op : Agent -> Store -> Completion A * Store) : Exec A :=
  match a with
  | None =>
      throw (TypeError ("Cannot read properties of undefined (reading '" ++ method_name ++ "')"))
  | Some ag =>
      fun w =>
        let (c, s') := op ag (store w) in
        (c, with_store s' (emit e w))
  end.

End World.

Arguments Agent {host} Store.
Arguments World {host} Store.
Arguments Exec {host} Store A.

Declare Scope exec_scope.
Delimit Scope exec_scope with exec.
Notation "x <- m ;; k" := (bind m (fun x => k))
  (at level 61, m at next level, right associativity) : exec_scope.
Notation "m ;; k" := (bind m (fun _ => k))
  (at level 61, right associativity) : exec_scope.

(** ** The tools of tools.ts *)

Section Tools.
Context {host : Host} {Store : Type}.
Local Open Scope exec_scope.

(** What a tool hands back to the model: a text, the JSON a Klaviyo read
    returned, or the array of schedules. *)
Inductive ToolResult : Type :=
| Text (s : string)
| Data (j : Json number)
| Tasks (l : list ScheduleDescriptor).

(** tool({ description, parameters, execute }): [parameters] is the type
    of the arguments the schema lets through, [execute] is left out by the
    tools that wait for a human. *)
Record Tool : Type := {
  description : string;
  parameters : Type;
  execute : option (parameters -> Exec Store ToolResult);
}.

(** *** getWeatherInformation, getLocalTime *)

Definition getWeatherInformation : Tool :=
  {| description := "show the weather in a given city to the user";
     parameters := string;   (* { city } *)
     execute := None |}.

Definition getLocalTime_execute (location : string) : Exec Store ToolResult :=
  console_log [CStr ("Getting local time for " ++ location)] ;;
  ret (Text "10am").

Definition getLocalTime : Tool :=
  {| description := "get the local time for a specified location";
     parameters := string;   (* { location } *)
     execute := Some getLocalTime_execute |}.

(** *** scheduleTask *)

(** The [when] argument: the type tag and the three fields the executor
    reads. The executor types it as [any], so the tag is kept as the string
    it is compared with, and a field may be left out. *)
Record When : Type := {
  type : string;
  date : option Date;
  delayInSeconds : option number;
  cron : option string;
}.

(** Modelled from the spec: the values of [type] in the scheduling
    descriptor shape accepted from the model (section 6). The schema
    itself, unstable_scheduleSchema, is imported from the agents package. *)
Definition schedule_types : list string :=
  ["scheduled"; "delayed"; "cron"; "no-schedule"].

Definition throwError {A} (msg : string) : Exec Store A := throw (Error msg).

(** Reading an optional field: its value, or undefined. *)
Definition field {A} (inject : A -> ScheduleInput) (value : option A) : ScheduleInput :=
  match value with
  | Some a => inject a
  | None => InUndefined
  end.

(** const input = when.type === "scheduled" ? when.date : ... *)
Definition scheduleTask_input (when : When) : Exec Store ScheduleInput :=
  if type when =? "scheduled" then ret (field InDate (date when))
  else if type when =? "delayed" then ret (field InNumber (delayInSeconds when))
  else if type when =? "cron" then ret (field InString (cron when))
  else throwError "not a valid schedule input".

Definition scheduleTask_execute (args : When * string) : Exec Store ToolResult :=
  let '(when, description) := args in
  agent <- getCurrentAgent ;;
  if type when =? "no-schedule" then ret (Text "Not a valid schedule input")
  else
    input <- scheduleTask_input when ;;
    (* the try statement: [Some] is the catch block's return *)
    caught <- try_catch
      (* no await: the promise the call returns is dropped *)
      (call_agent agent "schedule" (Schedule input "executeTask" description)
         (fun ag => schedule ag input "executeTask" description) ;;
       ret None)
      (fun error =>
         console_error [CStr "error scheduling task"; CErr error] ;;
         ret (Some (Text ("Error scheduling task: " ++ error_to_string error)))) ;;
    match caught with
    | Some result => ret result
    | None =>
        ret (Text ("Task scheduled for type " ++ dquote ++ type when ++ dquote
                   ++ " : " ++ input_to_string input))
    end.

Definition scheduleTask : Tool :=
  {| description := "A tool to schedule a task to be executed at a later time";
     parameters := (When * string)%type;   (* { when, description } *)
     execute := Some scheduleTask_execute |}.

(** *** getScheduledTasks, cancelScheduledTask *)

Definition getScheduledTasks_execute (_ : unit) : Exec Store ToolResult :=
  agent <- getCurrentAgent ;;
  try_catch
    (tasks <- call_agent agent "getSchedules" GetSchedules getSchedules ;;
     match tasks with
     | None => ret (Text "No scheduled tasks found.")           (* !tasks *)
     | Some [] => ret (Text "No scheduled tasks found.")        (* tasks.length === 0 *)
     | Some (t :: rest) => ret (Tasks (t :: rest))
     end)
    (fun error =>
       console_error [CStr "Error listing scheduled tasks"; CErr error] ;;
       ret (Text ("Error listing scheduled tasks: " ++ error_to_string error))).

Definition getScheduledTasks : Tool :=
  {| description := "List all tasks that have been scheduled";
     parameters := unit;
     execute := Some getScheduledTasks_execute |}.

Definition cancelScheduledTask_execute (taskId : string) : Exec Store ToolResult :=
  agent <- getCurrentAgent ;;
  try_catch
    (cancelled <- call_agent agent "cancelSchedule" (CancelSchedule taskId)
                    (fun ag => cancelSchedule ag taskId) ;;
     await cancelled ;;
     ret (Text ("Task " ++ taskId ++ " has been successfully canceled.")))
    (fun error =>
       console_error [CStr "Error canceling scheduled task"; CErr error] ;;
       ret (Text ("Error canceling task " ++ taskId ++ ": " ++ error_to_string error))).

Definition cancelScheduledTask : Tool :=
  {| description := "Cancel a scheduled task using its ID";
     parameters := string;   (* { taskId } *)
     execute := Some cancelScheduledTask_execute |}.

(** *** Klaviyo: what the executors share *)

(** The headers object every Klaviyo request carries. *)
Definition klaviyo_headers (apiKey : string) : list (string * string) :=
  [("Authorization", "Klaviyo-API-Key " ++ apiKey);
   ("Content-Type", "application/json");
   ("Accept", "application/json");
   ("Revision", "2025-07-15")].

(** fetch(url, { headers }) with the key read from the environment as the
    headers object is built. *)
Definition klaviyo_get (url : string) : Exec Store Response :=
  apiKey <- env_KLAVIYO_API_KEY_or_empty ;;
  fetch {| url := url; method := None; headers := klaviyo_headers apiKey; body := None |}.

(** fetch(url, { method, headers, body }) *)
Definition klaviyo_send (method : string) (url : string) (body : option string)
  : Exec Store Response :=
  apiKey <- env_KLAVIYO_API_KEY_or_empty ;;
  fetch {| url := url; method := Some method; headers := klaviyo_headers apiKey; body := body |}.

Definition status_line (response : Response) : string :=
  number_to_string (status response) ++ " " ++ statusText response.

(** if (!response.ok) throw new Error(`Klaviyo API error: status statusText`) *)
Definition check_ok (response : Response) : Exec Store unit :=
  if ok response then ret tt
  else throw (Error ("Klaviyo API error: " ++ status_line response)).

(** if (!response.ok) { errorData = await response.text(); throw ... } *)
Definition check_ok_with_body (response : Response) : Exec Store unit :=
  if ok response then ret tt
  else
    errorData <- lift (text response) ;;
    throw (Error ("Klaviyo API error: " ++ status_line response ++ " - " ++ errorData)).

(** ...(value && { key: value }) inside an object literal: nothing for a
    value that is left out or is the empty string. *)
Definition spread_if (key : string) (value : option string) : list (string * Json number) :=
  match value with
  | Some s => if is_empty s then [] else [(key, JStr s)]
  | None => []
  end.

(** The arguments of createKlaviyoProfile and updateKlaviyoProfile. *)
Record ProfileParams : Type := {
  email : string;
  firstName : option string;
  lastName : option string;
  phoneNumber : option string;
  address1 : option string;
  address2 : option string;
  city : option string;
  region : option string;
  country : option string;
  zip : option string;
  organization : option string;
  title : option string;
  image : option string;
  customProperties : option (list (string * Json number));
}.

(** The optional attributes, in the order the object literal spreads them. *)
Definition optional_attributes (params : ProfileParams) : list (string * Json number) :=
  (spread_if "first_name" (firstName params)
   ++ spread_if "last_name" (lastName params)
   ++ spread_if "phone_number" (phoneNumber params)
   ++ spread_if "address1" (address1 params)
   ++ spread_if "address2" (address2 params)
   ++ spread_if "city" (city params)
   ++ spread_if "region" (region params)
   ++ spread_if "country" (country params)
   ++ spread_if "zip" (zip params)
   ++ spread_if "organization" (organization params)
   ++ spread_if "title" (title params)
   ++ spread_if "image" (image params)
   ++ match customProperties params with
      | Some extra => [("$extra", JObj extra)]
      | None => []
      end)%list.

Definition search_url (email : string) : string :=
  "https://a.klaviyo.com/api/v2/people/search?email=" ++ encodeURIComponent email.

(** The request of the people search, as fetch receives it. *)
Definition search_request (apiKey email : string) : Request :=
  {| url := search_url email; method := None;
     headers := klaviyo_headers apiKey; body := None |}.

(** The first step of the two-step executors: search the profile by email
    and take the id of the first match. *)
Definition find_profile_id (email : string) : Exec Store Value :=
  searchResponse <- klaviyo_get (search_url email) ;;
  (if ok searchResponse then ret tt
   else throw (Error ("Error finding profile: " ++ status_line searchResponse))) ;;
  searchData <- lift (json searchResponse) ;;
  length <- lift (get_prop (Some searchData) "length") ;;
  (if truthy length then ret tt
   else throw (Error ("Profile not found for email: " ++ email))) ;;
  lift (get_prop (index0 searchData) "id").

(** *** The Klaviyo tools that run on their own *)

Definition getKlaviyoProfile_execute (email : string) : Exec Store ToolResult :=
  try_catch
    (apiKey <- env_KLAVIYO_API_KEY_or_empty ;;
     console_log [CStr "Klaviyo API Key length:"; CNum (number_of_nat (String.length apiKey))] ;;
     console_log [CStr "Klaviyo API Key starts with:"; CStr (substring 0 3 apiKey)] ;;
     (if is_empty apiKey
      then throw (Error "KLAVIYO_API_KEY environment variable is not set")
      else ret tt) ;;
     response <- fetch {| url := search_url email; method := None;
                          headers := klaviyo_headers apiKey; body := None |} ;;
     (if ok response then ret tt
      else
        errorText <- lift (text response) ;;
        console_error [CStr "Klaviyo API Error Details:";
                       CObj [("status", CNum (status response));
                             ("statusText", CStr (statusText response));
                             ("body", CStr errorText)]] ;;
        throw (Error ("Klaviyo API error: " ++ status_line response ++ " - " ++ errorText))) ;;
     data <- lift (json response) ;;
     ret (Data data))
    (fun error =>
       console_error [CStr "Error getting Klaviyo profile"; CErr error] ;;
       ret (Text ("Error getting profile: " ++ error_to_string error))).

Definition getKlaviyoProfile : Tool :=
  {| description := "Get a customer profile from Klaviyo by email address";
     parameters := string;   (* { email } *)
     execute := Some getKlaviyoProfile_execute |}.

Definition getKlaviyoLists_execute (_ : unit) : Exec Store ToolResult :=
  try_catch
    (response <- klaviyo_get "https://a.klaviyo.com/api/v2/lists" ;;
     check_ok response ;;
     data <- lift (json response) ;;
     ret (Data data))
    (fun error =>
       console_error [CStr "Error getting Klaviyo lists"; CErr error] ;;
       ret (Text ("Error getting lists: " ++ error_to_string error))).

Definition getKlaviyoLists : Tool :=
  {| description := "Get all lists from Klaviyo account";
     parameters := unit;
     execute := Some getKlaviyoLists_execute |}.

Definition getKlaviyoCampaigns_execute (limit : option number) : Exec Store ToolResult :=
  (* { limit = 50 } *)
  let limit := match limit with Some n => n | None => number_of_nat 50 end in
  try_catch
    (response <- klaviyo_get ("https://a.klaviyo.com/api/v2/campaigns?count="
                              ++ number_to_string limit) ;;
     check_ok response ;;
     data <- lift (json response) ;;
     ret (Data data))
    (fun error =>
       console_error [CStr "Error getting Klaviyo campaigns"; CErr error] ;;
       ret (Text ("Error getting campaigns: " ++ error_to_string error))).

Definition getKlaviyoCampaigns : Tool :=
  {| description := "Get all campaigns from Klaviyo account";
     parameters := option number;   (* { limit } *)
     execute := Some getKlaviyoCampaigns_execute |}.

Definition append_if (key : string) (value : option string) : list (string * string) :=
  match value with
  | Some s => if is_empty s then [] else [(key, s)]
  | None => []
  end.

Definition getKlaviyoMetrics_execute (args : option string * option string * option string)
  : Exec Store ToolResult :=
  let '(metricId, since, until) := args in
  try_catch
    (let url :=
       match metricId with
       | Some m =>
           if is_empty m then "https://a.klaviyo.com/api/v2/metrics"
           else "https://a.klaviyo.com/api/v2/metric/" ++ m
       | None => "https://a.klaviyo.com/api/v2/metrics"
       end in
     let params := (append_if "since" since ++ append_if "until" until)%list in
     let query := URLSearchParams_toString params in
     let url := if is_empty query then url else url ++ "?" ++ query in
     response <- klaviyo_get url ;;
     check_ok response ;;
     data <- lift (json response) ;;
     ret (Data data))
    (fun error =>
       console_error [CStr "Error getting Klaviyo metrics"; CErr error] ;;
       ret (Text ("Error getting metrics: " ++ error_to_string error))).

Definition getKlaviyoMetrics : Tool :=
  {| description := "Get metrics from Klaviyo account";
     parameters := (option string * option string * option string)%type;
                   (* { metricId, since, until } *)
     execute := Some getKlaviyoMetrics_execute |}.

(** *** The Klaviyo tools that wait for a human

    Registered with no [execute]; what runs on approval is in [executions]. *)

Definition createKlaviyoProfile : Tool :=
  {| description := "Create a new customer profile in Klaviyo";
     parameters := ProfileParams;
     execute := None |}.

Definition updateKlaviyoProfile : Tool :=
  {| description := "Update an existing customer profile in Klaviyo";
     parameters := ProfileParams;
     execute := None |}.

Definition createKlaviyoList : Tool :=
  {| description := "Create a new list in Klaviyo";
     parameters := (string * option string)%type;   (* { name, description } *)
     execute := None |}.

Definition addProfileToList : Tool :=
  {| description := "Add a customer profile to a specific list in Klaviyo";
     parameters := (string * string)%type;   (* { email, listId } *)
     execute := None |}.

Definition removeProfileFromList : Tool :=
  {| description := "Remove a customer profile from a specific list in Klaviyo";
     parameters := (string * string)%type;   (* { email, listId } *)
     execute := None |}.

Definition sendKlaviyoCampaign : Tool :=
  {| description := "Send a campaign in Klaviyo";
     parameters := string;   (* { campaignId } *)
     execute := None |}.

(** export const tools *)
Definition tools : list (string * Tool) :=
  [("getWeatherInformation", getWeatherInformation);
   ("getLocalTime", getLocalTime);
   ("scheduleTask", scheduleTask);
   ("getScheduledTasks", getScheduledTasks);
   ("cancelScheduledTask", cancelScheduledTask);
   ("createKlaviyoProfile", createKlaviyoProfile);
   ("getKlaviyoProfile", getKlaviyoProfile);
   ("updateKlaviyoProfile", updateKlaviyoProfile);
   ("getKlaviyoLists", getKlaviyoLists);
   ("createKlaviyoList", createKlaviyoList);
   ("addProfileToList", addProfileToList);
   ("removeProfileFromList", removeProfileFromList);
   ("getKlaviyoCampaigns", getKlaviyoCampaigns);
   ("sendKlaviyoCampaign", sendKlaviyoCampaign);
   ("getKlaviyoMetrics", getKlaviyoMetrics)].

(** A tool given no execute function requires human confirmation
    (tools.ts, lines 3 and 20). *)
Inductive SideEffectClass : Type := AUTO | REQUIRES_CONFIRMATION.

Definition classify (t : Tool) : SideEffectClass :=
  match execute t with
  | Some _ => AUTO
  | None => REQUIRES_CONFIRMATION
  end.

(** *** The confirmed executors *)

Definition getWeatherInformation_confirmed (city : string) : Exec Store ToolResult :=
  console_log [CStr ("Getting weather information for " ++ city)] ;;
  ret (Text ("The weather in " ++ city ++ " is sunny")).

Definition createKlaviyoProfile_confirmed (params : ProfileParams) : Exec Store ToolResult :=
  try_catch
    (let profileData :=
       JObj [("data", JObj [("type", JStr "profile");
                            ("attributes",
                             JObj (("email", JStr (email params)) :: optional_attributes params))])] in
     response <- klaviyo_send "POST" "https://a.klaviyo.com/api/profiles/"
                   (Some (JSON_stringify profileData)) ;;
     check_ok_with_body response ;;
     data <- lift (json response) ;;
     inner <- lift (get_prop (Some data) "data") ;;
     profileId <- lift (get_prop inner "id") ;;
     idText <- lift (value_to_string profileId) ;;
     ret (Text ("Profile created successfully for " ++ email params
                ++ ". Profile ID: " ++ idText)))
    (fun error =>
       console_error [CStr "Error creating Klaviyo profile"; CErr error] ;;
       ret (Text ("Error creating profile: " ++ error_to_string error))).

(** A property whose value is undefined is left out by JSON.stringify. *)
Definition field_if_defined (key : string) (v : Value) : list (string * Json number) :=
  match v with
  | Some j => [(key, j)]
  | None => []
  end.

Definition updateKlaviyoProfile_confirmed (params : ProfileParams) : Exec Store ToolResult :=
  try_catch
    (profileId <- find_profile_id (email params) ;;
     let updateData :=
       JObj [("data", JObj ([("type", JStr "profile")]
                            ++ field_if_defined "id" profileId
                            ++ [("attributes", JObj (optional_attributes params))])%list)] in
     (* the URL is built first: the id is converted before anything is sent *)
     idText <- lift (value_to_string profileId) ;;
     response <- klaviyo_send "PATCH"
                   ("https://a.klaviyo.com/api/profiles/" ++ idText ++ "/")
                   (Some (JSON_stringify updateData)) ;;
     check_ok_with_body response ;;
     ret (Text ("Profile updated successfully for " ++ email params)))
    (fun error =>
       console_error [CStr "Error updating Klaviyo profile"; CErr error] ;;
       ret (Text ("Error updating profile: " ++ error_to_string error))).

Definition createKlaviyoList_confirmed (params : string * option string)
  : Exec Store ToolResult :=
  let '(name, description) := params in
  try_catch
    (let listData :=
       JObj [("data", JObj [("type", JStr "list");
                            ("attributes",
                             JObj (("name", JStr name) :: spread_if "description" description))])] in
     response <- klaviyo_send "POST" "https://a.klaviyo.com/api/lists/"
                   (Some (JSON_stringify listData)) ;;
     check_ok_with_body response ;;
     data <- lift (json response) ;;
     inner <- lift (get_prop (Some data) "data") ;;
     listId <- lift (get_prop inner "id") ;;
     idText <- lift (value_to_string listId) ;;
     ret (Text ("List created successfully: " ++ name
                ++ ". List ID: " ++ idText)))
    (fun error =>
       console_error [CStr "Error creating Klaviyo list"; CErr error] ;;
       ret (Text ("Error creating list: " ++ error_to_string error))).

Definition addProfileToList_confirmed (params : string * string) : Exec Store ToolResult :=
  let '(email, listId) := params in
  try_catch
    (profileId <- find_profile_id email ;;
     let subscriptionData :=
       JObj [("data", JObj [("type", JStr "subscription");
                            ("attributes",
                             JObj (field_if_defined "profile_id" profileId
                                   ++ [("custom_source", JStr "API")])%list)])] in
     response <- klaviyo_send "POST"
                   ("https://a.klaviyo.com/api/lists/" ++ listId ++ "/subscriptions/")
                   (Some (JSON_stringify subscriptionData)) ;;
     check_ok_with_body response ;;
     ret (Text ("Profile " ++ email ++ " added to list " ++ listId ++ " successfully")))
    (fun error =>
       console_error [CStr "Error adding profile to list"; CErr error] ;;
       ret (Text ("Error adding profile to list: " ++ error_to_string error))).

Definition removeProfileFromList_confirmed (params : string * string) : Exec Store ToolResult :=
  let '(email, listId) := params in
  try_catch
    (profileId <- find_profile_id email ;;
     idText <- lift (value_to_string profileId) ;;
     response <- klaviyo_send "DELETE"
                   ("https://a.klaviyo.com/api/lists/" ++ listId ++ "/subscriptions/"
                    ++ idText ++ "/")
                   None ;;
     check_ok_with_body response ;;
     ret (Text ("Profile " ++ email ++ " removed from list " ++ listId ++ " successfully")))
    (fun error =>
       console_error [CStr "Error removing profile from list"; CErr error] ;;
       ret (Text ("Error removing profile from list: " ++ error_to_string error))).

Definition sendKlaviyoCampaign_confirmed (campaignId : string) : Exec Store ToolResult :=
  try_catch
    (response <- klaviyo_send "POST"
                   ("https://a.klaviyo.com/api/v2/campaign/" ++ campaignId ++ "/send")
                   None ;;
     check_ok_with_body response ;;
     ret (Text ("Campaign " ++ campaignId ++ " sent successfully")))
    (fun error =>
       console_error [CStr "Error sending Klaviyo campaign"; CErr error] ;;
       ret (Text ("Error sending campaign: " ++ error_to_string error))).

(** An entry of [executions]: a function of its own parameter type. *)
Record Execution : Type := {
  arguments : Type;
  run : arguments -> Exec Store ToolResult;
}.

(** export const executions *)
Definition executions : list (string * Execution) :=
  [("getWeatherInformation", {| run := getWeatherInformation_confirmed |});
   ("createKlaviyoProfile", {| run := createKlaviyoProfile_confirmed |});
   ("updateKlaviyoProfile", {| run := updateKlaviyoProfile_confirmed |});
   ("createKlaviyoList", {| run := createKlaviyoList_confirmed |});
   ("addProfileToList", {| run := addProfileToList_confirmed |});
   ("removeProfileFromList", {| run := removeProfileFromList_confirmed |});
   ("sendKlaviyoCampaign", {| run := sendKlaviyoCampaign_confirmed |})].

(** Object.keys *)
Definition keys {A} (object : list (string * A)) : list string := map fst object.

Definition has_key {A} (k : string) (object : list (string * A)) : bool :=
  existsb (String.eqb k) (keys object).

(** *** Reading a trace *)

(** The HTTP requests of a trace, in the order they were issued. *)
Fixpoint requests (t : list Event) : list Request :=
  match t with
  | [] => []
  | Fetch r :: rest => r :: requests rest
  | _ :: rest => requests rest
  end.

(** A request that changes data at the remote side: any method but GET
    (the default) and HEAD. *)
Definition mutating (r : Request) : bool :=
  match method r with
  | None => false
  | Some m => negb ((m =? "GET") || (m =? "HEAD"))
  end.

(** The calls of [agent.schedule] in a trace, with their arguments. *)
Fixpoint schedule_calls (t : list Event) : list (ScheduleInput * string * string) :=
  match t with
  | [] => []
  | Schedule input callback payload :: rest => (input, callback, payload) :: schedule_calls rest
  | _ :: rest => schedule_calls rest
  end.

(** The world after scheduleTask called [agent.schedule] and the call left
    the store [s']. *)
Definition after_schedule (input : ScheduleInput) (description : string) (s' : Store)
    (w : World Store) : World Store :=
  with_store s' (emit (Schedule input "executeTask" description) w).

(** *** Reading one run *)

(** The events of one run from [w]: what the trace gained. *)
Definition issued {A} (m : Exec Store A) (w : World Store) : list Event :=
  skipn (List.length (trace w)) (trace (snd (m w))).

(** A call on the agent session. *)
Definition is_agent_call (e : Event) : bool :=
  match e with
  | Schedule _ _ _ => true
  | GetSchedules => true
  | CancelSchedule _ => true
  | _ => false
  end.


(** The mutating request of each two-step executor, for the profile id
    [profileId] that the search gave and its text [idText] in a URL. *)
Definition update_request (apiKey : string) (params : ProfileParams) (profileId : Value)
    (idText : string) : Request :=
  {| url := "https://a.klaviyo.com/api/profiles/" ++ idText ++ "/";
     method := Some "PATCH";
     headers := klaviyo_headers apiKey;
     body := Some (JSON_stringify
               (JObj [("data", JObj ([("type", JStr "profile")]
                                     ++ field_if_defined "id" profileId
                                     ++ [("attributes",
                                          JObj (optional_attributes params))])%list)])) |}.

Definition subscribe_request (apiKey listId : string) (profileId : Value) : Request :=
  {| url := "https://a.klaviyo.com/api/lists/" ++ listId ++ "/subscriptions/";
     method := Some "POST";
     headers := klaviyo_headers apiKey;
     body := Some (JSON_stringify
               (JObj [("data", JObj [("type", JStr "subscription");
                                     ("attributes",
                                      JObj (field_if_defined "profile_id" profileId
                                            ++ [("custom_source", JStr "API")])%list)])])) |}.

Definition unsubscribe_request (apiKey listId : string) (idText : string) : Request :=
  {| url := "https://a.klaviyo.com/api/lists/" ++ listId ++ "/subscriptions/"
            ++ idText ++ "/";
     method := Some "DELETE";
     headers := klaviyo_headers apiKey;
     body := None |}.

(** The keys an optional argument of a profile can put among the
    attributes. *)
Definition optional_attribute_keys : list string :=
  ["first_name"; "last_name"; "phone_number"; "address1"; "address2"; "city";
   "region"; "country"; "zip"; "organization"; "title"; "image"; "$extra"].

(** The optional text arguments of a profile, each with the attribute key
    the object literals give it (tools.ts, lines 434 to 445 and 517 to
    528). *)
Definition optional_arguments (params : ProfileParams) : list (string * option string) :=
  [("first_name", firstName params);
   ("last_name", lastName params);
   ("phone_number", phoneNumber params);
   ("address1", address1 params);
   ("address2", address2 params);
   ("city", city params);
   ("region", region params);
   ("country", country params);
   ("zip", zip params);
   ("organization", organization params);
   ("title", title params);
   ("image", image params)].

(** The characters of a string. *)
Definition chars (s : string) : list ascii := list_ascii_of_string s.

(** An optional string that is empty counts as left out. *)
Definition nonempty (value : option string) : option string :=
  match value with
  | Some s => if is_empty s then None else Some s
  | None => None
  end.

(** The network of [w] answers every request with [response]. *)
Definition answers (w : World Store) (response : Response) : Prop :=
  forall t request, network w t request = Normal response.

(** The three tools that work on the agent session. *)
Definition scheduling_tools : list string :=
  ["scheduleTask"; "getScheduledTasks"; "cancelScheduledTask"].

End Tools.

Arguments Tool {host} Store.
Arguments Execution {host} Store.
Arguments tools {host} Store.
Arguments executions {host} Store.

(** ** The session's schedule store *)

Module TaskDispatcher.
Section Dispatcher.
Context {host : Host}.
(** The clock and the cron parser belong to the host: whether an absolute
    time has already passed, and whether a cron expression parses. *)
Variable elapsed : Date -> bool.
Variable parses : string -> bool.

(** Modelled from the spec: the Schedule Store and the Task Dispatcher's
    contract (sections 3 and 4.3), which the Chat class of server.ts
    implements and tools.ts calls. The descriptors are kept in creation
    order; [created] counts the schedules made so far and numbers them. *)
Record ScheduleStore : Type := {
  descriptors : list ScheduleDescriptor;
  created : nat;
}.

(** Modelled from the spec: the store with nothing scheduled. *)
Definition empty : ScheduleStore := {| descriptors := []; created := 0 |}.

(** Modelled from the spec: the dispatcher-assigned identifier of the n-th
    schedule, its number in decimal. *)
Definition assigned_id (n : nat) : string := NilZero.string_of_uint (Nat.to_uint n).

(** Modelled from the spec: a scheduling call registers one descriptor and
    gives its identifier. *)
Definition register (k : Kind) (t : Trigger) (action payload : string) (s : ScheduleStore)
  : Completion (Promise string) * ScheduleStore :=
  let new_id := assigned_id (S (created s)) in
  (Normal (Fulfilled new_id),
   {| descriptors := (descriptors s
                      ++ [{| id := new_id; kind := k; trigger := t;
                             actionName := action; payload := payload |}])%list;
      created := S (created s) |}).

(** Modelled from the spec: how an operation of the session fails. The
    operations are asynchronous (tools.ts awaits cancelSchedule), so a
    failure is the rejection of the promise the call returned. *)
Definition fails {A} (error_class : string) (s : ScheduleStore)
  : Completion (Promise A) * ScheduleStore :=
  (Normal (Rejected (mkError error_class "")), s).

(** Modelled from the spec: schedule(descriptor) gives the schedule's id;
    it fails with InvalidTriggerError when the trigger has no kind, with
    InvalidCronError when the cron expression cannot be parsed, and with
    PastTimestampError when the absolute time already elapsed. *)
Definition schedule (input : ScheduleInput) (action payload : string) (s : ScheduleStore)
  : Completion (Promise string) * ScheduleStore :=
  match input with
  | InUndefined => fails "InvalidTriggerError" s
  | InDate d =>
      if elapsed d then fails "PastTimestampError" s
      else register ONE_SHOT (AbsoluteTimestamp d) action payload s
  | InNumber n => register DELAYED (DelaySeconds n) action payload s
  | InString c =>
      if parses c then register RECURRING_CRON (CronExpression c) action payload s
      else fails "InvalidCronError" s
  end.

(** Modelled from the spec: list() gives the descriptors in creation
    order, the empty sequence when nothing is scheduled. *)
Definition list (s : ScheduleStore) : Completion (option (list ScheduleDescriptor)) * ScheduleStore :=
  (Normal (Some (descriptors s)), s).

(** Modelled from the spec: the id is present in the store. *)
Definition scheduled (scheduleId : string) (s : ScheduleStore) : bool :=
  existsb (fun d => id d =? scheduleId) (descriptors s).

(** Modelled from the spec: cancel(scheduleId) removes the descriptor and
    fails with UnknownScheduleError when the id is absent. *)
Definition cancel (scheduleId : string) (s : ScheduleStore)
  : Completion (Promise unit) * ScheduleStore :=
  if scheduled scheduleId s then
    (Normal (Fulfilled tt),
     {| descriptors := filter (fun d => negb (id d =? scheduleId)) (descriptors s);
        created := created s |})
  else fails "UnknownScheduleError" s.

(** Modelled from the spec: the session as the tools see it, with the
    three operations of the Task Dispatcher. *)
Definition session : Agent ScheduleStore :=
  Build_Agent schedule list cancel.

End Dispatcher.
End TaskDispatcher.

(** ** A host to run the tools on

    Numbers are the naturals and dates are kept as their text; the cron
    parser knows one expression. Enough to evaluate the tools on the inputs
    used below. *)

Module Fixture.

Definition decimal (n : nat) : string := NilZero.string_of_uint (Nat.to_uint n).

(** JSON text of a value whose strings need no escaping. *)
Fixpoint stringify (j : Json nat) : string :=
  match j with
  | JNull => "null"
  | JBool b => if b then "true" else "false"
  | JNum n => decimal n
  | JStr s => dquote ++ s ++ dquote
  | JArr items => "[" ++ join "," (map stringify items) ++ "]"
  | JObj fields =>
      "{" ++ join "," (map (fun kv => match kv with
                                       | (k, v) => dquote ++ k ++ dquote ++ ":" ++ stringify v
                                       end) fields) ++ "}"
  end.

Definition host : Host :=
  {| number := nat;
     Date := string;
     number_of_nat := fun n => n;
     number_to_string := decimal;
     number_truthy := fun n => negb (n =? 0)%nat;
     date_to_string := fun d => d;
     JSON_stringify := stringify;
     number_truthy_of_nat := fun n => eq_refl |}.
#[local] Existing Instance host.

Definition Store : Type := @TaskDispatcher.ScheduleStore host.

Definition session : @Agent host Store :=
  @TaskDispatcher.session host (fun _ => false) (String.eqb "0 * * * *").

(** The people search finds nobody. *)
Definition no_match : Response :=
  {| ok := true; status := 200; statusText := "OK";
     text := Normal "[]"; json := Normal (JArr []) |}.

Definition world (key : option string) (s : Store) : @World host Store :=
  {| KLAVIYO_API_KEY := key;
     network := fun _ _ => Normal no_match;
     agent := Some session;
     store := s;
     trace := [] |}.

Definition start : @World host Store := world (Some "pk_test") TaskDispatcher.empty.

Definition delayed_30 : @When host :=
  {| type := "delayed"; date := None; delayInSeconds := Some 30; cron := None |}.

(** A delayed schedule whose delayInSeconds is left out: the schema makes
    every field but [type] optional. *)
Definition missing_delay : @When host :=
  {| type := "delayed"; date := None; delayInSeconds := None; cron := None |}.

Definition bad_cron : @When host :=
  {| type := "cron"; date := None; delayInSeconds := None; cron := Some "every day" |}.

Definition no_schedule : @When host :=
  {| type := "no-schedule"; date := None; delayInSeconds := None; cron := None |}.

Definition profile (address : string) : @ProfileParams host :=
  {| email := address; firstName := Some "Ada"; lastName := None; phoneNumber := None;
     address1 := None; address2 := None; city := None; region := None; country := None;
     zip := None; organization := None; title := None; image := None;
     customProperties := None |}.

(** The world after one delayed task was scheduled: the store holds the
    schedule "1". *)
Definition one_scheduled : @World host Store :=
  snd (scheduleTask_execute (delayed_30, "p") start).



(** The people search finds two profiles, and Klaviyo accepts what is
    sent with a method. *)
Definition two_matches : Response :=
  {| ok := true; status := 200; statusText := "OK";
     text := Normal "";
     json := Normal (JArr [JObj [("id", JStr "P1")]; JObj [("id", JStr "P2")]]) |}.

Definition accepted : Response :=
  {| ok := true; status := 202; statusText := "Accepted";
     text := Normal ""; json := Normal (JObj []) |}.

Definition finding : @World host Store :=
  {| KLAVIYO_API_KEY := Some "pk_test";
     network := fun _ request =>
                  match method request with
                  | None => Normal two_matches
                  | Some _ => Normal accepted
                  end;
     agent := Some session;
     store := TaskDispatcher.empty;
     trace := [] |}.

(** Klaviyo answers every request with the new object's id. *)
Definition created : Response :=
  {| ok := true; status := 201; statusText := "Created";
     text := Normal "";
     json := Normal (JObj [("data", JObj [("type", JStr "profile");
                                          ("id", JStr "01H")])]) |}.

Definition creating : @World host Store :=
  {| KLAVIYO_API_KEY := Some "pk_test";
     network := fun _ _ => Normal created;
     agent := Some session;
     store := TaskDispatcher.empty;
     trace := [] |}.

(** An id that is an object with an own "toString" key: it has no text. *)
Definition odd_id : Json number := JObj [("toString", JNum 1)].

Definition odd_match : Response :=
  {| ok := true; status := 200; statusText := "OK";
     text := Normal "";
     json := Normal (JArr [JObj [("id", odd_id)]]) |}.

Definition odd_finding : @World host Store :=
  {| KLAVIYO_API_KEY := Some "pk_test";
     network := fun _ request =>
                  match method request with
                  | None => Normal odd_match
                  | Some _ => Normal accepted
                  end;
     agent := Some session;
     store := TaskDispatcher.empty;
     trace := [] |}.

Definition odd_created : Response :=
  {| ok := true; status := 201; statusText := "Created";
     text := Normal "";
     json := Normal (JObj [("data", JObj [("id", odd_id)])]) |}.

Definition odd_creating : @World host Store :=
  {| KLAVIYO_API_KEY := Some "pk_test";
     network := fun _ _ => Normal odd_created;
     agent := Some session;
     store := TaskDispatcher.empty;
     trace := [] |}.

(** No current agent. *)
Definition no_agent : @World host Store :=
  {| KLAVIYO_API_KEY := Some "pk_test";
     network := fun _ _ => Normal no_match;
     agent := None;
     store := TaskDispatcher.empty;
     trace := [] |}.

(** A session whose schedule call itself raises. *)
Definition raising_session : @Agent host Store :=
  Build_Agent (fun _ _ _ s => (Throw (Error "storage is down"), s))
              (fun s => (Throw (Error "storage is down"), s))
              (fun _ s => (Throw (Error "storage is down"), s)).

Definition raising : @World host Store :=
  {| KLAVIYO_API_KEY := Some "pk_test";
     network := fun _ _ => Normal no_match;
     agent := Some raising_session;
     store := TaskDispatcher.empty;
     trace := [] |}.

End Fixture.

(** * Properties *)

Section Properties.
Context {host : Host} {Store : Type}.

(** ** Traces *)

Lemma schedule_calls_app (t1 t2 : list Event) :
  schedule_calls (t1 ++ t2) = (schedule_calls t1 ++ schedule_calls t2)%list.
Proof.
  induction t1 as [|e t1 IH]; simpl; [reflexivity|].
  destruct e; simpl; try apply IH. now rewrite IH.
Qed.

Lemma requests_app (t1 t2 : list Event) :
  requests (t1 ++ t2) = (requests t1 ++ requests t2)%list.
Proof.
  induction t1 as [|e t1 IH]; simpl; [reflexivity|].
  destruct e; simpl; try apply IH. now rewrite IH.
Qed.

(** ** scheduleTask *)

Lemma scheduleTask_input_scheduled (when : When) (w : World Store) :
  type when = "scheduled" ->
  scheduleTask_input when w = (Normal (field InDate (date when)), w).
Proof. intros H. unfold scheduleTask_input. now rewrite H. Qed.

Lemma scheduleTask_input_delayed (when : When) (w : World Store) :
  type when = "delayed" ->
  scheduleTask_input when w = (Normal (field InNumber (delayInSeconds when)), w).
Proof. intros H. unfold scheduleTask_input. now rewrite H. Qed.

Lemma scheduleTask_input_cron (when : When) (w : World Store) :
  type when = "cron" ->
  scheduleTask_input when w = (Normal (field InString (cron when)), w).
Proof. intros H. unfold scheduleTask_input. now rewrite H. Qed.

(** With a type of the schema other than "no-schedule", an input is
    selected and nothing is thrown on the way. *)
Lemma scheduleTask_input_accepted (when : When) (w : World Store) :
  In (type when) schedule_types -> type when <> "no-schedule" ->
  exists input, scheduleTask_input when w = (Normal input, w).
Proof.
  intros Hin Hno. simpl in Hin.
  destruct Hin as [H | [H | [H | [H | []]]]]; symmetry in H.
  - eexists. now apply scheduleTask_input_scheduled.
  - eexists. now apply scheduleTask_input_delayed.
  - eexists. now apply scheduleTask_input_cron.
  - contradiction.
Qed.

(** A type outside the schema's enum reaches throwError, which is not
    inside the try block: the executor throws. *)
Lemma scheduleTask_unknown_type_throws (when : When) (description : string)
    (w : World Store) :
  ~ In (type when) schedule_types ->
  scheduleTask_execute (when, description) w
  = (Throw (Error "not a valid schedule input"), w).
Proof.
  intros Hout. simpl in Hout.
  unfold scheduleTask_execute, scheduleTask_input, throwError, bind, getCurrentAgent.
  destruct (String.eqb_spec (type when) "no-schedule") as [E | _];
    [exfalso; intuition|].
  destruct (String.eqb_spec (type when) "scheduled") as [E | _];
    [exfalso; intuition|].
  destruct (String.eqb_spec (type when) "delayed") as [E | _];
    [exfalso; intuition|].
  destruct (String.eqb_spec (type when) "cron") as [E | _];
    [exfalso; intuition|].
  reflexivity.
Qed.

(** One run of the executor past the "no-schedule" test, with an agent:
    the call is made, and the text depends on whether the call itself
    raised. The promise a completed call returned is not looked at. *)
Lemma scheduleTask_run (ag : Agent Store) (when : When) (description : string)
    (input : ScheduleInput) (w : World Store) :
  agent w = Some ag ->
  type when <> "no-schedule" ->
  scheduleTask_input when w = (Normal input, w) ->
  scheduleTask_execute (when, description) w =
    match schedule ag input "executeTask" description (store w) with
    | (Normal _, s') =>
        (Normal (Text ("Task scheduled for type " ++ dquote ++ type when ++ dquote
                       ++ " : " ++ input_to_string input)),
         after_schedule input description s' w)
    | (Throw e, s') =>
        (Normal (Text ("Error scheduling task: " ++ error_to_string e)),
         emit (ConsoleError [CStr "error scheduling task"; CErr e])
              (after_schedule input description s' w))
    end.
Proof.
  intros Hag Hno Hin.
  unfold scheduleTask_execute, bind, getCurrentAgent.
  destruct (String.eqb_spec (type when) "no-schedule") as [E | _]; [contradiction|].
  rewrite Hin. unfold try_catch, call_agent. rewrite Hag.
  destruct (schedule ag input "executeTask" description (store w)) as [[r | e] s'];
    reflexivity.
Qed.

(** The same run with no current agent: reading [schedule] of undefined
    throws inside the try block. *)
Lemma scheduleTask_run_no_agent (when : When) (description : string)
    (input : ScheduleInput) (w : World Store) :
  agent w = None ->
  type when <> "no-schedule" ->
  scheduleTask_input when w = (Normal input, w) ->
  fst (scheduleTask_execute (when, description) w) =
    Normal (Text ("Error scheduling task: TypeError: "
                  ++ "Cannot read properties of undefined (reading 'schedule')")).
Proof.
  intros Hag Hno Hin.
  unfold scheduleTask_execute, bind, getCurrentAgent.
  destruct (String.eqb_spec (type when) "no-schedule") as [E | _]; [contradiction|].
  rewrite Hin. unfold try_catch, call_agent. rewrite Hag. reflexivity.
Qed.

(** For every input the scheduleTask schema accepts, the executor
    completes with a text: nothing is thrown past the tool call, whatever
    the session does and even when there is no session. *)
Lemma scheduleTask_never_throws (when : When) (description : string) (w : World Store) :
  In (type when) schedule_types ->
  exists result, fst (scheduleTask_execute (when, description) w) = Normal (Text result).
Proof.
  intros Hin.
  destruct (String.eqb_spec (type when) "no-schedule") as [E | Hno].
  - exists "Not a valid schedule input".
    unfold scheduleTask_execute, bind, getCurrentAgent. now rewrite E.
  - destruct (scheduleTask_input_accepted when w Hin Hno) as [input Hinput].
    destruct (agent w) as [ag|] eqn:Hag.
    + rewrite (scheduleTask_run ag when description input w Hag Hno Hinput).
      destruct (schedule ag input "executeTask" description (store w)) as [[r | e] s'];
        eexists; reflexivity.
    + eexists. now apply (scheduleTask_run_no_agent when description input).
Qed.

(** An error that the call of [agent.schedule] itself raises is caught and
    returned as the result text. *)
Lemma scheduleTask_raised_error_is_text
    (ag : Agent Store) (when : When) (description : string) (input : ScheduleInput)
    (w : World Store) (e : JSError) (s' : Store) :
  type when <> "no-schedule" ->
  agent w = Some ag ->
  scheduleTask_input when w = (Normal input, w) ->
  schedule ag input "executeTask" description (store w) = (Throw e, s') ->
  fst (scheduleTask_execute (when, description) w)
  = Normal (Text ("Error scheduling task: " ++ error_to_string e)).
Proof.
  intros Hno Hag Hinput Hthrow.
  rewrite (scheduleTask_run ag when description input w Hag Hno Hinput).
  now rewrite Hthrow.
Qed.

(** An error that arrives as the rejection of the promise is not seen: the
    call is not awaited, the try block ends normally, and the executor
    reports the task as scheduled. *)
Lemma scheduleTask_drops_rejection
    (ag : Agent Store) (when : When) (description : string) (input : ScheduleInput)
    (w : World Store) (e : JSError) (s' : Store) :
  type when <> "no-schedule" ->
  agent w = Some ag ->
  scheduleTask_input when w = (Normal input, w) ->
  schedule ag input "executeTask" description (store w) = (Normal (Rejected e), s') ->
  scheduleTask_execute (when, description) w
  = (Normal (Text ("Task scheduled for type " ++ dquote ++ type when ++ dquote
                   ++ " : " ++ input_to_string input)),
     after_schedule input description s' w).
Proof.
  intros Hno Hag Hinput Hrej.
  rewrite (scheduleTask_run ag when description input w Hag Hno Hinput).
  now rewrite Hrej.
Qed.

(** C4. With when.type = "no-schedule" the executor returns the text
    "Not a valid schedule input" and leaves the world as it was: no call
    of the session's schedule, no change of the store, nothing thrown. *)
Theorem scheduleTask_no_schedule (when : When) (description : string) (w : World Store) :
  type when = "no-schedule" ->
  scheduleTask_execute (when, description) w
  = (Normal (Text "Not a valid schedule input"), w).
Proof.
  intros H. unfold scheduleTask_execute, bind, getCurrentAgent.
  rewrite H. reflexivity.
Qed.

(** What the session's schedule operation was called with during a run
    from [w]: the calls recorded after those [w] already had, and the
    store the operation left. *)
Lemma scheduleTask_call (ag : Agent Store) (when : When) (description : string)
    (input : ScheduleInput) (w : World Store) :
  agent w = Some ag ->
  type when <> "no-schedule" ->
  scheduleTask_input when w = (Normal input, w) ->
  let w' := snd (scheduleTask_execute (when, description) w) in
  schedule_calls (trace w')
  = (schedule_calls (trace w) ++ [(input, "executeTask", description)])%list
  /\ store w' = snd (schedule ag input "executeTask" description (store w)).
Proof.
  intros Hag Hno Hinput w'. subst w'.
  rewrite (scheduleTask_run ag when description input w Hag Hno Hinput).
  destruct (schedule ag input "executeTask" description (store w)) as [[r | e] s'];
    simpl; repeat rewrite schedule_calls_app; simpl;
    rewrite ?app_nil_r; split; reflexivity.
Qed.

(** C5 (amended). With when.type "scheduled", "delayed" or "cron", the
    session's schedule operation is called once, with the field of that
    type (when.date, when.delayInSeconds, when.cron), the action name
    "executeTask" and the description as payload. The trigger passed has
    the shape of the type's kind exactly when that field is present: a
    field that is left out is passed on as undefined, which the tool does
    not check. *)
Theorem scheduleTask_passes_matching_field
    (ag : Agent Store) (when : When) (description : string) (w : World Store) :
  agent w = Some ag ->
  let w' := snd (scheduleTask_execute (when, description) w) in
  let called_with input :=
    schedule_calls (trace w')
    = (schedule_calls (trace w) ++ [(input, "executeTask", description)])%list
    /\ store w' = snd (schedule ag input "executeTask" description (store w)) in
  let shaped input := trigger_kind input = kind_of_type (type when) in
  (type when = "scheduled" ->
     called_with (field InDate (date when))
     /\ (shaped (field InDate (date when)) <-> date when <> None)
     /\ (date when = None -> field InDate (date when) = InUndefined))
  /\ (type when = "delayed" ->
        called_with (field InNumber (delayInSeconds when))
        /\ (shaped (field InNumber (delayInSeconds when)) <-> delayInSeconds when <> None)
        /\ (delayInSeconds when = None
            -> field InNumber (delayInSeconds when) = InUndefined))
  /\ (type when = "cron" ->
        called_with (field InString (cron when))
        /\ (shaped (field InString (cron when)) <-> cron when <> None)
        /\ (cron when = None -> field InString (cron when) = InUndefined)).
Proof.
  intros Hag w' called_with shaped. subst w' called_with shaped. cbv beta.
  split; [|split]; intros H;
    (assert (Hno : type when <> "no-schedule") by (rewrite H; discriminate));
    [ pose proof (scheduleTask_input_scheduled when w H) as Hinput
    | pose proof (scheduleTask_input_delayed when w H) as Hinput
    | pose proof (scheduleTask_input_cron when w H) as Hinput ];
    (split; [apply (scheduleTask_call ag when description _ w Hag Hno Hinput)|]);
    rewrite H; unfold kind_of_type; simpl.
  - destruct (date when); simpl; split; try split; intros; congruence.
  - destruct (delayInSeconds when); simpl; split; try split; intros; congruence.
  - destruct (cron when); simpl; split; try split; intros; congruence.
Qed.

(** C6 (amended). A scheduling call that succeeds returns the text
    "Task scheduled for type <type> : <input>", built from the tool's own
    arguments; the identifier the session's schedule operation assigned is
    dropped. *)
Theorem scheduleTask_returns_confirmation_text
    (ag : Agent Store) (when : When) (description : string) (input : ScheduleInput)
    (w : World Store) (scheduleId : string) (s' : Store) :
  type when <> "no-schedule" ->
  agent w = Some ag ->
  scheduleTask_input when w = (Normal input, w) ->
  schedule ag input "executeTask" description (store w)
  = (Normal (Fulfilled scheduleId), s') ->
  scheduleTask_execute (when, description) w
  = (Normal (Text ("Task scheduled for type " ++ dquote ++ type when ++ dquote
                   ++ " : " ++ input_to_string input)),
     after_schedule input description s' w).
Proof.
  intros Hno Hag Hinput Hok.
  rewrite (scheduleTask_run ag when description input w Hag Hno Hinput).
  now rewrite Hok.
Qed.

(** ** getScheduledTasks *)

(** C7 (amended). When the session lists no schedule, getScheduledTasks
    returns the text "No scheduled tasks found." in place of the empty
    sequence; it is a result, not an error. *)
Theorem getScheduledTasks_nothing_scheduled
    (ag : Agent Store) (w : World Store) (s' : Store) :
  agent w = Some ag ->
  getSchedules ag (store w) = (Normal (Some []), s') ->
  fst (getScheduledTasks_execute tt w) = Normal (Text "No scheduled tasks found.").
Proof.
  intros Hag Hlist.
  unfold getScheduledTasks_execute, bind, getCurrentAgent, try_catch, call_agent.
  rewrite Hag, Hlist. reflexivity.
Qed.

(** ** getKlaviyoProfile *)

(** C9. With KLAVIYO_API_KEY absent or empty, getKlaviyoProfile completes
    with an error text and issues no HTTP request; the environment, the
    network, the session and its store are as before, so only this call
    failed. *)
Theorem getKlaviyoProfile_without_api_key (email : string) (w : World Store) :
  KLAVIYO_API_KEY w = None \/ KLAVIYO_API_KEY w = Some "" ->
  let w' := snd (getKlaviyoProfile_execute email w) in
  fst (getKlaviyoProfile_execute email w)
  = Normal (Text ("Error getting profile: Error: "
                  ++ "KLAVIYO_API_KEY environment variable is not set"))
  /\ requests (trace w') = requests (trace w)
  /\ KLAVIYO_API_KEY w' = KLAVIYO_API_KEY w
  /\ network w' = network w
  /\ agent w' = agent w
  /\ store w' = store w.
Proof.
  intros Hkey w'. subst w'.
  unfold getKlaviyoProfile_execute, try_catch, bind, env_KLAVIYO_API_KEY_or_empty.
  unfold api_key.
  destruct Hkey as [Hkey | Hkey]; rewrite Hkey; simpl;
    repeat rewrite requests_app; simpl; rewrite ?app_nil_r, ?Hkey;
    repeat split; reflexivity.
Qed.

(** ** getLocalTime *)

(** C10. getLocalTime is registered with an executor, and for every
    location that executor returns "10am". *)
Theorem getLocalTime_returns_10am :
  exists run : string -> Exec Store ToolResult,
    execute getLocalTime = Some run
    /\ forall (location : string) (w : World Store),
         fst (run location w) = Normal (Text "10am").
Proof.
  exists getLocalTime_execute. split.
  - reflexivity.
  - intros location w. unfold getLocalTime_execute, bind, console_log, ret.
    reflexivity.
Qed.

(** ** The two-step executors *)

(** An empty array has a falsy length. *)
Lemma empty_array_length_falsy :
  exists len : Value,
    get_prop (Some (JArr [])) "length" = Normal len /\ truthy len = false.
Proof.
  eexists. split; [reflexivity|].
  simpl. now rewrite number_truthy_of_nat.
Qed.

(** The first step when the search answers with an empty array: one GET
    request went out, and the step throws "Profile not found". *)
Lemma find_profile_id_no_match (email : string) (w : World Store) (response : Response) :
  network w (trace w) (search_request (api_key w) email) = Normal response ->
  ok response = true ->
  json response = Normal (JArr []) ->
  find_profile_id email w
  = (Throw (Error ("Profile not found for email: " ++ email)),
     emit (Fetch (search_request (api_key w) email)) w).
Proof.
  intros Hnet Hok Hjson.
  unfold find_profile_id, klaviyo_get, bind, env_KLAVIYO_API_KEY_or_empty, fetch, lift.
  fold (search_request (api_key w) email).
  rewrite Hnet, Hok. unfold ret. rewrite Hjson.
  destruct empty_array_length_falsy as [len [Hlen Hfalsy]].
  rewrite Hlen, Hfalsy. reflexivity.
Qed.

(** C2. When the search by email answers with no match, each two-step
    executor (updateKlaviyoProfile, addProfileToList, removeProfileFromList)
    returns its "Profile not found" error text, and the only HTTP request it
    issued is the search, which is a GET: no mutating request goes out. *)
Theorem two_step_executors_not_found
    (params : ProfileParams) (listId : string) (w : World Store) (response : Response) :
  let search := search_request (api_key w) (email params) in
  network w (trace w) search = Normal response ->
  ok response = true ->
  json response = Normal (JArr []) ->
  let not_found prefix :=
    Normal (Text (prefix ++ ": Error: Profile not found for email: " ++ email params)) in
  let only_search (w' : World Store) :=
    requests (trace w') = (requests (trace w) ++ [search])%list in
  mutating search = false
  /\ fst (updateKlaviyoProfile_confirmed params w) = not_found "Error updating profile"
  /\ only_search (snd (updateKlaviyoProfile_confirmed params w))
  /\ fst (addProfileToList_confirmed (email params, listId) w)
     = not_found "Error adding profile to list"
  /\ only_search (snd (addProfileToList_confirmed (email params, listId) w))
  /\ fst (removeProfileFromList_confirmed (email params, listId) w)
     = not_found "Error removing profile from list"
  /\ only_search (snd (removeProfileFromList_confirmed (email params, listId) w)).
Proof.
  intros search Hnet Hok Hjson not_found only_search.
  subst search not_found only_search. cbv beta.
  pose proof (find_profile_id_no_match (email params) w response Hnet Hok Hjson) as Hfind.
  split; [reflexivity|].
  unfold updateKlaviyoProfile_confirmed, addProfileToList_confirmed,
    removeProfileFromList_confirmed, try_catch, bind.
  rewrite Hfind. simpl.
  repeat rewrite requests_app. simpl. rewrite !app_nil_r.
  repeat split; reflexivity.
Qed.

(** ** cancelScheduledTask on the session's schedule store *)

Lemma existsb_filter_negb {A} (f : A -> bool) (l : list A) :
  existsb f (filter (fun x => negb (f x)) l) = false.
Proof.
  induction l as [|x l IH]; simpl; [reflexivity|].
  destruct (f x) eqn:E; simpl; [exact IH|]. now rewrite E.
Qed.

Lemma cancel_leaves_absent (scheduleId : string) (s : TaskDispatcher.ScheduleStore) :
  TaskDispatcher.scheduled scheduleId
    (snd (TaskDispatcher.cancel scheduleId s)) = false.
Proof.
  unfold TaskDispatcher.cancel.
  destruct (TaskDispatcher.scheduled scheduleId s) eqn:E; simpl; [|exact E].
  unfold TaskDispatcher.scheduled. simpl.
  apply (existsb_filter_negb (fun d => id d =? scheduleId)).
Qed.

(** cancelScheduledTask on the session of the specification: the store
    after the run is the one cancel left, and the session stays. *)
Lemma cancelScheduledTask_on_session
    (elapsed : Date -> bool) (parses : string -> bool)
    (taskId : string) (w : World TaskDispatcher.ScheduleStore) :
  agent w = Some (TaskDispatcher.session elapsed parses) ->
  let w' := snd (cancelScheduledTask_execute taskId w) in
  agent w' = agent w
  /\ store w' = snd (TaskDispatcher.cancel taskId (store w))
  /\ fst (cancelScheduledTask_execute taskId w)
     = if TaskDispatcher.scheduled taskId (store w)
       then Normal (Text ("Task " ++ taskId ++ " has been successfully canceled."))
       else Normal (Text ("Error canceling task " ++ taskId ++ ": UnknownScheduleError")).
Proof.
  intros Hag w'. subst w'.
  unfold cancelScheduledTask_execute, bind, getCurrentAgent, try_catch, call_agent.
  rewrite Hag. simpl. unfold TaskDispatcher.cancel, TaskDispatcher.fails.
  destruct (TaskDispatcher.scheduled taskId (store w)); simpl; auto.
Qed.

(** C8. On the schedule store of the specification, cancelling an id that
    is not in the store returns the UnknownScheduleError text; and whatever
    the first cancellation of an id did, cancelling the same id again
    returns that error text. *)
Theorem cancelScheduledTask_absent_id
    (elapsed : Date -> bool) (parses : string -> bool)
    (taskId : string) (w : World TaskDispatcher.ScheduleStore) :
  agent w = Some (TaskDispatcher.session elapsed parses) ->
  let unknown :=
    Normal (Text ("Error canceling task " ++ taskId ++ ": UnknownScheduleError")) in
  let w1 := snd (cancelScheduledTask_execute taskId w) in
  (TaskDispatcher.scheduled taskId (store w) = false ->
   fst (cancelScheduledTask_execute taskId w) = unknown)
  /\ fst (cancelScheduledTask_execute taskId w1) = unknown.
Proof.
  intros Hag unknown w1. subst unknown w1.
  destruct (cancelScheduledTask_on_session elapsed parses taskId w Hag)
    as [Hag1 [Hstore1 Hres]].
  split.
  - intros Habsent. rewrite Hres, Habsent. reflexivity.
  - rewrite Hag in Hag1.
    destruct (cancelScheduledTask_on_session elapsed parses taskId _ Hag1)
      as [_ [_ Hres2]].
    rewrite Hres2, Hstore1, cancel_leaves_absent. reflexivity.
Qed.

(** ** The registry *)

Lemma In_keys {A} (k : string) (object : list (string * A)) :
  In k (keys object) <-> has_key k object = true.
Proof.
  unfold has_key. rewrite existsb_exists. split.
  - intros H. exists k. split; [exact H | apply String.eqb_refl].
  - intros [x [Hx Heq]]. apply String.eqb_eq in Heq. now subst.
Qed.

(** C1. [executions] has an entry for exactly the seven names listed;
    and for every tool of the registry: it requires confirmation iff it
    was registered with no execute function, and its name is a key of
    [executions] iff it requires confirmation. *)
Theorem confirmation_iff_no_execute :
  keys (executions Store)
  = ["getWeatherInformation"; "createKlaviyoProfile"; "updateKlaviyoProfile";
     "createKlaviyoList"; "addProfileToList"; "removeProfileFromList";
     "sendKlaviyoCampaign"]
  /\ (forall name, In name (keys (executions Store)) -> In name (keys (tools Store)))
  /\ (forall name t, In (name, t) (tools Store) ->
        (classify t = REQUIRES_CONFIRMATION <-> execute t = None)
        /\ (In name (keys (executions Store)) <-> classify t = REQUIRES_CONFIRMATION)).
Proof.
  split; [reflexivity|]. split.
  - intros name H. simpl in H. apply In_keys.
    repeat (destruct H as [H | H]; [subst name; reflexivity|]). contradiction.
  - intros name t Hin. simpl in Hin.
    repeat (destruct Hin as [Hin | Hin];
            [ injection Hin as <- <-; rewrite In_keys;
              split; split; intros H; solve [reflexivity | discriminate H] |]).
    contradiction.
Qed.

End Properties.

(** * Properties of the whole registry *)

Section Registry.
Context {host : Host} {Store : Type}.

Lemma skipn_length_app {A} (l new : list A) :
  skipn (List.length l) (l ++ new) = new.
Proof. induction l as [|x l IH]; simpl; [reflexivity | exact IH]. Qed.

(** Unfolds an executor down to the world it reads and the answers it
    gets, and splits on each answer. *)
Ltac unfold_exec :=
  unfold getLocalTime_execute, scheduleTask_execute, getScheduledTasks_execute,
    cancelScheduledTask_execute, getKlaviyoProfile_execute, getKlaviyoLists_execute,
    getKlaviyoCampaigns_execute, getKlaviyoMetrics_execute,
    getWeatherInformation_confirmed, createKlaviyoProfile_confirmed,
    updateKlaviyoProfile_confirmed, createKlaviyoList_confirmed,
    addProfileToList_confirmed, removeProfileFromList_confirmed,
    sendKlaviyoCampaign_confirmed,
    find_profile_id, klaviyo_get, klaviyo_send, check_ok, check_ok_with_body,
    scheduleTask_input, throwError, call_agent, getCurrentAgent,
    env_KLAVIYO_API_KEY_or_empty, fetch, console_log, console_error,
    await, lift, try_catch, bind, throw, ret.

Ltac split_answer :=
  match goal with
  | |- context [match ?x with _ => _ end] =>
      lazymatch x with
      | context [match _ with _ => _ end] => fail
      | _ => idtac
      end;
      lazymatch type of x with
      | bool => destruct x eqn:?
      | Completion _ => destruct x
      | Promise _ => destruct x
      | prod _ _ => destruct x
      | option _ => destruct x
      | list _ => destruct x
      end
  end.

Ltac run_exec :=
  unfold issued; unfold_exec; repeat (cbn beta iota delta [fst snd]; split_answer).

(** Reads the events of the run off the final trace. *)
Ltac read_trace :=
  cbn [trace store emit with_store fst snd];
  repeat rewrite <- app_assoc;
  rewrite ?skipn_length_app, ?skipn_all;
  cbn.

(** Takes the entries of a table one by one. *)
Ltac each_tool Hin tac :=
  simpl in Hin;
  repeat (destruct Hin as [Hin | Hin];
          [injection Hin as <- <-; tac |]);
  try contradiction.

Ltac registered run Hrun args :=
  simpl in Hrun; first [discriminate Hrun | injection Hrun as <-]; cbn in args.

(** X1. A tool registered with an execute function, which runs without
    confirmation, issues no mutating HTTP request, whatever its arguments
    and whatever the network answers. *)
Theorem auto_tools_never_mutate (name : string) (t : Tool Store) :
  In (name, t) (tools Store) ->
  forall run, execute t = Some run ->
  forall (args : parameters t) (w : World Store),
    Forall (fun r => mutating r = false) (requests (issued (run args) w)).
Proof.
  intros Hin.
  each_tool Hin ltac:(intros run Hrun args w; registered run Hrun args;
                      run_exec; read_trace; repeat constructor).
Qed.

(** X2. A confirmed executor issues at most one mutating HTTP request in
    one run: an approval never creates, updates or sends twice. *)
Theorem confirmed_executors_mutate_at_most_once (name : string) (e : Execution Store) :
  In (name, e) (executions Store) ->
  forall (args : arguments e) (w : World Store),
    List.length (filter mutating (requests (issued (run e args) w))) <= 1.
Proof.
  intros Hin.
  each_tool Hin ltac:(intros args w; cbn in args; cbn [run];
                      run_exec; read_trace; auto).
Qed.


(** X4. No executor throws past the tool call: every confirmed executor,
    and every registered executor other than scheduleTask, completes with a
    result for every argument and every world. *)
Theorem executors_never_throw :
  (forall name t, In (name, t) (tools Store) ->
   name <> "scheduleTask" ->
   forall run, execute t = Some run ->
   forall (args : parameters t) (w : World Store),
     exists result, fst (run args w) = Normal result)
  /\ (forall name e, In (name, e) (executions Store) ->
      forall (args : arguments e) (w : World Store),
        exists result, fst (run e args w) = Normal result).
Proof.
  split.
  - intros name t Hin.
    each_tool Hin ltac:(intros Hname run Hrun args w;
                        first [ exfalso; apply Hname; reflexivity
                              | registered run Hrun args;
                                run_exec; eexists; reflexivity ]).
  - intros name e Hin.
    each_tool Hin ltac:(intros args w; cbn in args; cbn [run];
                        run_exec; eexists; reflexivity).
Qed.

(** X5. The tools keep to their side. The three scheduling tools issue no
    HTTP request; every other registered tool and every confirmed executor
    makes no call on the agent session and leaves its store as it was. *)
Theorem tools_keep_to_their_side :
  (forall name t, In (name, t) (tools Store) ->
   forall run, execute t = Some run ->
   forall (args : parameters t) (w : World Store),
     if existsb (String.eqb name) scheduling_tools
     then requests (issued (run args) w) = []
     else filter is_agent_call (issued (run args) w) = []
          /\ store (snd (run args w)) = store w)
  /\ (forall name e, In (name, e) (executions Store) ->
      forall (args : arguments e) (w : World Store),
        filter is_agent_call (issued (run e args) w) = []
        /\ store (snd (run e args w)) = store w).
Proof.
  split.
  - intros name t Hin.
    each_tool Hin ltac:(intros run Hrun args w; registered run Hrun args;
                        cbn [existsb scheduling_tools]; simpl String.eqb;
                        cbn [orb]; run_exec; read_trace; auto).
  - intros name e Hin.
    each_tool Hin ltac:(intros args w; cbn in args; cbn [run];
                        run_exec; read_trace; auto).
Qed.

(** ** The two-step executors, in full *)

(** The lookup always issues the search, and gives an id only from an ok
    response whose JSON has a truthy length: the id of its element 0. *)
Lemma find_profile_id_cases (email : string) (w : World Store) :
  let search := search_request (api_key w) email in
  snd (find_profile_id email w) = emit (Fetch search) w
  /\ ((exists e, fst (find_profile_id email w) = Throw e)
      \/ (exists response data len profileId,
            network w (trace w) search = Normal response
            /\ ok response = true
            /\ json response = Normal data
            /\ get_prop (Some data) "length" = Normal len
            /\ truthy len = true
            /\ get_prop (index0 data) "id" = Normal profileId
            /\ fst (find_profile_id email w) = Normal profileId)).
Proof.
  intros search. subst search.
  unfold find_profile_id, klaviyo_get, bind, env_KLAVIYO_API_KEY_or_empty, fetch, lift,
    ret, throw.
  fold (search_request (api_key w) email).
  destruct (network w (trace w) (search_request (api_key w) email))
    as [response | e] eqn:Hnet; cbn [fst snd]; [|split; [reflexivity | left; eauto]].
  destruct (ok response) eqn:Hok; cbn [fst snd]; [|split; [reflexivity | left; eauto]].
  destruct (json response) as [data | e] eqn:Hjson; cbn [fst snd];
    [|split; [reflexivity | left; eauto]].
  destruct (get_prop (Some data) "length") as [len | e] eqn:Hlen; cbn [fst snd];
    [|split; [reflexivity | left; eauto]].
  destruct (truthy len) eqn:Htruthy; cbn [fst snd]; [|split; [reflexivity | left; eauto]].
  destruct (get_prop (index0 data) "id") as [profileId | e] eqn:Hid; cbn [fst snd];
    [|split; [reflexivity | left; eauto]].
  split; [reflexivity|]. right. exists response, data, len, profileId. auto 10.
Qed.

(** X6. A two-step executor always issues the search by email first, as
    a GET. It issues its mutating request, once and right after, only when
    the search response was ok, its JSON had a truthy length and the id of
    element 0 of that JSON could be read (and, where the id goes into the
    URL, converted to text), and then for that id; otherwise the search is
    its only request. *)
Theorem two_step_requests_shape (params : ProfileParams) (listId : string)
    (w : World Store) :
  let search := search_request (api_key w) (email params) in
  let found (then_sent : Value -> Prop) :=
    exists response data len profileId,
      network w (trace w) search = Normal response
      /\ ok response = true
      /\ json response = Normal data
      /\ get_prop (Some data) "length" = Normal len
      /\ truthy len = true
      /\ get_prop (index0 data) "id" = Normal profileId
      /\ then_sent profileId in
  let updates := requests (issued (updateKlaviyoProfile_confirmed params) w) in
  let adds := requests (issued (addProfileToList_confirmed (email params, listId)) w) in
  let removes :=
    requests (issued (removeProfileFromList_confirmed (email params, listId)) w) in
  mutating search = false
  /\ (updates = [search]
      \/ found (fun profileId =>
                  exists idText,
                    value_to_string profileId = Normal idText
                    /\ updates = [search;
                                  update_request (api_key w) params profileId idText]))
  /\ (adds = [search]
      \/ found (fun profileId =>
                  adds = [search; subscribe_request (api_key w) listId profileId]))
  /\ (removes = [search]
      \/ found (fun profileId =>
                  exists idText,
                    value_to_string profileId = Normal idText
                    /\ removes = [search;
                                  unsubscribe_request (api_key w) listId idText])).
Proof.
  intros search found updates adds removes.
  subst search found updates adds removes. cbv beta.
  destruct (find_profile_id_cases (email params) w)
    as [Hworld [[e He]
               | [response [data [len [pid [Hnet [Hok [Hjson [Hlen [Htruthy [Hid Hfound]]]]]]]]]]]].
  - split; [reflexivity|].
    assert (Hfind : find_profile_id (email params) w
                    = (Throw e, emit (Fetch (search_request (api_key w) (email params))) w))
      by (rewrite <- He, <- Hworld; apply surjective_pairing).
    repeat split; left;
      unfold issued, updateKlaviyoProfile_confirmed, addProfileToList_confirmed,
        removeProfileFromList_confirmed, try_catch, bind, console_error, ret;
      rewrite Hfind; read_trace; reflexivity.
  - split; [reflexivity|].
    assert (Hfind : find_profile_id (email params) w
                    = (Normal pid, emit (Fetch (search_request (api_key w) (email params))) w))
      by (rewrite <- Hfound, <- Hworld; apply surjective_pairing).
    split; [|split].
    + unfold issued, updateKlaviyoProfile_confirmed, try_catch, bind. rewrite Hfind.
      unfold lift. cbn beta iota delta [fst snd].
      destruct (value_to_string pid) as [idText | e] eqn:Htext.
      * right. exists response, data, len, pid.
        do 6 (split; [assumption|]). exists idText. split; [exact Htext|].
        unfold klaviyo_send, check_ok_with_body, bind, env_KLAVIYO_API_KEY_or_empty,
          fetch, lift, console_error, ret, throw.
        repeat (cbn beta iota delta [fst snd]; split_answer); read_trace; reflexivity.
      * left. unfold console_error, ret. read_trace. reflexivity.
    + right. exists response, data, len, pid. do 6 (split; [assumption|]).
      unfold issued, addProfileToList_confirmed, try_catch, bind. rewrite Hfind.
      unfold klaviyo_send, check_ok_with_body, bind, env_KLAVIYO_API_KEY_or_empty,
        fetch, lift, console_error, ret, throw.
      repeat (cbn beta iota delta [fst snd]; split_answer); read_trace; reflexivity.
    + unfold issued, removeProfileFromList_confirmed, try_catch, bind. rewrite Hfind.
      unfold lift. cbn beta iota delta [fst snd].
      destruct (value_to_string pid) as [idText | e] eqn:Htext.
      * right. exists response, data, len, pid.
        do 6 (split; [assumption|]). exists idText. split; [exact Htext|].
        unfold klaviyo_send, check_ok_with_body, bind, env_KLAVIYO_API_KEY_or_empty,
          fetch, lift, console_error, ret, throw.
        repeat (cbn beta iota delta [fst snd]; split_answer); read_trace; reflexivity.
      * left. unfold console_error, ret. read_trace. reflexivity.
Qed.

Lemma api_key_emit (e : Event) (w : World Store) : api_key (emit e w) = api_key w.
Proof. reflexivity. Qed.

(** The lookup on an ok response whose JSON is a non-empty array gives the
    id of the first element, however many follow. *)
Lemma find_profile_id_first_match (email : string) (w : World Store)
    (response : Response) (first : Json number) (rest : list (Json number))
    (profileId : Value) :
  network w (trace w) (search_request (api_key w) email) = Normal response ->
  ok response = true ->
  json response = Normal (JArr (first :: rest)) ->
  get_prop (Some first) "id" = Normal profileId ->
  find_profile_id email w
  = (Normal profileId, emit (Fetch (search_request (api_key w) email)) w).
Proof.
  intros Hnet Hok Hjson Hid.
  unfold find_profile_id, klaviyo_get, bind, env_KLAVIYO_API_KEY_or_empty, fetch, lift.
  fold (search_request (api_key w) email).
  rewrite Hnet, Hok. unfold ret. rewrite Hjson.
  cbn [get_prop String.eqb Ascii.eqb Bool.eqb truthy List.length].
  rewrite number_truthy_of_nat. cbn [Nat.eqb negb index0 nth_error].
  rewrite Hid. reflexivity.
Qed.

(** X7. When the search finds profiles and the mutating request for the
    id of the first one is answered ok, each two-step executor returns its
    success text; where the id goes into the URL (update, remove) this
    needs the id to have a text. When the id has none, these two return
    their error text and send nothing after the search. *)
Theorem two_step_success (params : ProfileParams) (listId : string) (w : World Store)
    (response : Response) (first : Json number) (rest : list (Json number))
    (profileId : Value) :
  let search := search_request (api_key w) (email params) in
  network w (trace w) search = Normal response ->
  ok response = true ->
  json response = Normal (JArr (first :: rest)) ->
  get_prop (Some first) "id" = Normal profileId ->
  let accepted (mutation : Request) :=
    exists answer,
      network w (trace w ++ [Fetch search])%list mutation = Normal answer
      /\ ok answer = true in
  (forall idText,
     value_to_string profileId = Normal idText ->
     accepted (update_request (api_key w) params profileId idText) ->
     fst (updateKlaviyoProfile_confirmed params w)
     = Normal (Text ("Profile updated successfully for " ++ email params)))
  /\ (accepted (subscribe_request (api_key w) listId profileId) ->
      fst (addProfileToList_confirmed (email params, listId) w)
      = Normal (Text ("Profile " ++ email params ++ " added to list " ++ listId
                      ++ " successfully")))
  /\ (forall idText,
        value_to_string profileId = Normal idText ->
        accepted (unsubscribe_request (api_key w) listId idText) ->
        fst (removeProfileFromList_confirmed (email params, listId) w)
        = Normal (Text ("Profile " ++ email params ++ " removed from list " ++ listId
                        ++ " successfully")))
  /\ (forall e,
        value_to_string profileId = Throw e ->
        fst (updateKlaviyoProfile_confirmed params w)
        = Normal (Text ("Error updating profile: " ++ error_to_string e))
        /\ requests (issued (updateKlaviyoProfile_confirmed params) w) = [search]
        /\ fst (removeProfileFromList_confirmed (email params, listId) w)
           = Normal (Text ("Error removing profile from list: " ++ error_to_string e))
        /\ requests (issued (removeProfileFromList_confirmed (email params, listId)) w)
           = [search]).
Proof.
  intros search Hnet Hok Hjson Hid accepted. subst search accepted. cbv beta.
  pose proof (find_profile_id_first_match (email params) w response first rest
                profileId Hnet Hok Hjson Hid) as Hfind.
  split; [|split; [|split]].
  - intros idText Htext [answer [Hanswer Hanswer_ok]].
    unfold updateKlaviyoProfile_confirmed, try_catch, bind. rewrite Hfind.
    unfold lift. rewrite Htext.
    unfold klaviyo_send, check_ok_with_body, bind, env_KLAVIYO_API_KEY_or_empty, fetch.
    cbn [fst snd trace emit network].
    unfold update_request in Hanswer.
    rewrite api_key_emit, Hanswer, Hanswer_ok. reflexivity.
  - intros [answer [Hanswer Hanswer_ok]].
    unfold addProfileToList_confirmed, try_catch, bind. rewrite Hfind.
    unfold klaviyo_send, check_ok_with_body, bind, env_KLAVIYO_API_KEY_or_empty, fetch.
    cbn [fst snd trace emit network].
    unfold subscribe_request in Hanswer.
    rewrite api_key_emit, Hanswer, Hanswer_ok. reflexivity.
  - intros idText Htext [answer [Hanswer Hanswer_ok]].
    unfold removeProfileFromList_confirmed, try_catch, bind. rewrite Hfind.
    unfold lift. rewrite Htext.
    unfold klaviyo_send, check_ok_with_body, bind, env_KLAVIYO_API_KEY_or_empty, fetch.
    cbn [fst snd trace emit network].
    unfold unsubscribe_request in Hanswer.
    rewrite api_key_emit, Hanswer, Hanswer_ok. reflexivity.
  - intros e Htext.
    unfold issued, updateKlaviyoProfile_confirmed, removeProfileFromList_confirmed,
      try_catch, bind.
    rewrite Hfind. unfold lift. rewrite Htext. unfold console_error, ret.
    read_trace. repeat split; reflexivity.
Qed.

(** ** The tools on the agent session, in full *)

(** X8. cancelScheduledTask reports by how the awaited call settles: the
    success text when the promise is fulfilled, and the text "Error
    canceling task <id>: <error>" when the call throws or its promise is
    rejected. The store is the one the call left. *)
Theorem cancelScheduledTask_reports_settlement
    (ag : Agent Store) (taskId : string) (w : World Store) :
  agent w = Some ag ->
  fst (cancelScheduledTask_execute taskId w)
  = Normal (Text match fst (cancelSchedule ag taskId (store w)) with
                 | Normal (Fulfilled _) =>
                     "Task " ++ taskId ++ " has been successfully canceled."
                 | Normal (Rejected e) =>
                     "Error canceling task " ++ taskId ++ ": " ++ error_to_string e
                 | Throw e =>
                     "Error canceling task " ++ taskId ++ ": " ++ error_to_string e
                 end)
  /\ store (snd (cancelScheduledTask_execute taskId w))
     = snd (cancelSchedule ag taskId (store w)).
Proof.
  intros Hag.
  unfold cancelScheduledTask_execute, bind, getCurrentAgent, try_catch, call_agent.
  rewrite Hag.
  destruct (cancelSchedule ag taskId (store w)) as [[[u | e] | e] s'];
    split; reflexivity.
Qed.

(** X9. getScheduledTasks hands back the session's array as it is when it
    has at least one schedule, the text "No scheduled tasks found." for an
    empty or missing array, and the text "Error listing scheduled tasks:
    <error>" when the call throws. *)
Theorem getScheduledTasks_reports_the_list (ag : Agent Store) (w : World Store) :
  agent w = Some ag ->
  fst (getScheduledTasks_execute tt w)
  = Normal match fst (getSchedules ag (store w)) with
           | Normal (Some (t :: rest)) => Tasks (t :: rest)
           | Normal (Some []) => Text "No scheduled tasks found."
           | Normal None => Text "No scheduled tasks found."
           | Throw e => Text ("Error listing scheduled tasks: " ++ error_to_string e)
           end.
Proof.
  intros Hag.
  unfold getScheduledTasks_execute, bind, getCurrentAgent, try_catch, call_agent.
  rewrite Hag.
  destruct (getSchedules ag (store w)) as [[[[|t rest] |] | e] s']; reflexivity.
Qed.

(** X10. With no current agent, each of the three scheduling tools returns
    its error text with the TypeError of reading a method of undefined
    (scheduleTask for the types "scheduled", "delayed" and "cron"), and the
    store is as it was. *)
Theorem scheduling_tools_without_agent
    (when : When) (description taskId : string) (w : World Store) :
  agent w = None ->
  let missing method :=
    "TypeError: Cannot read properties of undefined (reading '" ++ method ++ "')" in
  (In (type when) ["scheduled"; "delayed"; "cron"] ->
   fst (scheduleTask_execute (when, description) w)
   = Normal (Text ("Error scheduling task: " ++ missing "schedule"))
   /\ store (snd (scheduleTask_execute (when, description) w)) = store w)
  /\ fst (getScheduledTasks_execute tt w)
     = Normal (Text ("Error listing scheduled tasks: " ++ missing "getSchedules"))
  /\ store (snd (getScheduledTasks_execute tt w)) = store w
  /\ fst (cancelScheduledTask_execute taskId w)
     = Normal (Text ("Error canceling task " ++ taskId ++ ": " ++ missing "cancelSchedule"))
  /\ store (snd (cancelScheduledTask_execute taskId w)) = store w.
Proof.
  intros Hag missing. subst missing. cbv beta.
  split.
  - intros Hin. simpl in Hin.
    unfold scheduleTask_execute, scheduleTask_input, bind, getCurrentAgent, try_catch,
      call_agent, ret.
    rewrite Hag.
    destruct Hin as [H | [H | [H | []]]]; rewrite <- H; split; reflexivity.
  - unfold getScheduledTasks_execute, cancelScheduledTask_execute, bind,
      getCurrentAgent, try_catch, call_agent.
    rewrite Hag. repeat split; reflexivity.
Qed.

(** ** What the requests carry *)

Lemma spread_if_In (key : string) (value : option string) (k : string)
    (v : Json number) :
  In (k, v) (spread_if key value)
  <-> k = key /\ exists s, nonempty value = Some s /\ v = JStr s.
Proof.
  unfold spread_if, nonempty.
  destruct value as [s|]; [destruct (is_empty s)|]; simpl; split.
  - intros [].
  - intros [_ [s' [H _]]]. discriminate H.
  - intros [H | []]. injection H as <- <-. split; [reflexivity|]. now exists s.
  - intros [-> [s' [H ->]]]. injection H as <-. now left.
  - intros [].
  - intros [_ [s' [H _]]]. discriminate H.
Qed.

(** Where an entry of the optional attributes can come from: one of the
    twelve text arguments under its key, or the custom properties. *)
Lemma optional_attributes_In (params : ProfileParams) (k : string) (v : Json number) :
  In (k, v) (optional_attributes params)
  <-> (exists value s,
         In (k, value) (optional_arguments params)
         /\ nonempty value = Some s /\ v = JStr s)
      \/ (k = "$extra" /\ exists extra, customProperties params = Some extra
                                       /\ v = JObj extra).
Proof.
  unfold optional_attributes, optional_arguments.
  repeat rewrite in_app_iff. repeat rewrite spread_if_In.
  split.
  - intros H.
    repeat (destruct H as [[-> [s [Hs ->]]] | H];
            [left; eexists; exists s; split; [simpl; auto 20 | split; [exact Hs | reflexivity]]|]).
    destruct (customProperties params) as [extra|]; [|destruct H].
    destruct H as [H | []]. injection H as <- <-.
    right. split; [reflexivity|]. now exists extra.
  - intros [[value [s [Hin [Hs ->]]]] | [-> [extra [Hextra ->]]]].
    + simpl in Hin.
      repeat (destruct Hin as [Hin | Hin];
              [injection Hin as <- <-;
               repeat first [ left; split; [reflexivity|]; exists s;
                              split; [exact Hs | reflexivity]
                            | right ]|]).
      destruct Hin.
    + rewrite Hextra. simpl. auto 20.
Qed.

(** X11. The attributes that the optional arguments add to a profile
    payload. An entry is present for a text argument exactly when the
    argument is given and not empty, and it is then the argument's text
    under the argument's key; "$extra" is present exactly when custom
    properties are given, and holds them. So every key is one of the
    thirteen attribute keys (never "email"), no text attribute is the empty
    string, and an argument that is left out or empty adds no entry: an
    update cannot blank a field. *)
Theorem optional_attributes_never_empty (params : ProfileParams) :
  (forall key value,
     In (key, value) (optional_arguments params) ->
     match nonempty value with
     | Some s =>
         s <> "" /\ forall v, In (key, v) (optional_attributes params) <-> v = JStr s
     | None => ~ In key (keys (optional_attributes params))
     end)
  /\ (match customProperties params with
      | Some extra =>
          forall v, In ("$extra", v) (optional_attributes params) <-> v = JObj extra
      | None => ~ In "$extra" (keys (optional_attributes params))
      end)
  /\ Forall (fun entry => In (fst entry) optional_attribute_keys /\ fst entry <> "email")
            (optional_attributes params).
Proof.
  split; [|split].
  - intros key value Hin.
    assert (Hone : forall value', In (key, value') (optional_arguments params) ->
                                  value' = value /\ key <> "$extra").
    { intros value' Hin'. simpl in Hin, Hin'.
      repeat (destruct Hin as [Hin | Hin];
              [injection Hin as <- <-;
               repeat (destruct Hin' as [Hin' | Hin'];
                       [first [ injection Hin' as <-; split; [reflexivity | discriminate]
                              | discriminate Hin' ]|]);
               destruct Hin'|]).
      destruct Hin. }
    destruct (nonempty value) as [s|] eqn:Hvalue.
    + split.
      * unfold nonempty in Hvalue. destruct value as [s'|]; [|discriminate].
        destruct (is_empty s') eqn:E; [discriminate|]. injection Hvalue as <-.
        now destruct s'.
      * intros v. rewrite optional_attributes_In. split.
        -- intros [[value' [s' [Hin' [Hs' ->]]]] | [Hkey _]].
           ++ destruct (Hone value' Hin') as [-> _]. congruence.
           ++ destruct (Hone value Hin) as [_ Hnot]. contradiction.
        -- intros ->. left. exists value, s. auto.
    + intros Hkey. unfold keys in Hkey. apply in_map_iff in Hkey.
      destruct Hkey as [[k v] [Hk Hentry]]. simpl in Hk. subst k.
      apply optional_attributes_In in Hentry.
      destruct Hentry as [[value' [s' [Hin' [Hs' _]]]] | [Hkey _]].
      * destruct (Hone value' Hin') as [-> _]. congruence.
      * destruct (Hone value Hin) as [_ Hnot]. contradiction.
  - destruct (customProperties params) as [extra|] eqn:Hextra.
    + intros v. rewrite optional_attributes_In. split.
      * intros [[value [s [Hin _]]] | [_ [extra' [Hsame ->]]]].
        -- simpl in Hin.
           repeat (destruct Hin as [Hin | Hin]; [discriminate Hin|]). destruct Hin.
        -- congruence.
      * intros ->. right. split; [reflexivity|]. now exists extra.
    + intros Hkey. unfold keys in Hkey. apply in_map_iff in Hkey.
      destruct Hkey as [[k v] [Hk Hentry]]. simpl in Hk. subst k.
      apply optional_attributes_In in Hentry.
      destruct Hentry as [[value [s [Hin _]]] | [_ [extra [Hsame _]]]].
      * simpl in Hin.
        repeat (destruct Hin as [Hin | Hin]; [discriminate Hin|]). destruct Hin.
      * congruence.
  - apply Forall_forall. intros [k v] Hentry. cbn [fst].
    apply optional_attributes_In in Hentry.
    destruct Hentry as [[value [s [Hin _]]] | [-> _]].
    + simpl in Hin.
      repeat (destruct Hin as [Hin | Hin];
              [injection Hin as <- _; split; [simpl; tauto | discriminate]|]).
      destruct Hin.
    + split; [simpl; tauto | discriminate].
Qed.

Lemma chars_app (a b : string) : chars (a ++ b) = (chars a ++ chars b)%list.
Proof. induction a as [|c a IH]; simpl; [reflexivity | now rewrite <- IH]. Qed.

Lemma hex_digit_kept (n : nat) : n < 16 -> uri_component_kept (hex_digit n) = true.
Proof.
  intros H. do 16 (destruct n as [|n]; [reflexivity|]). lia.
Qed.

(** What encodeURIComponent writes: kept characters and percent signs. *)
Lemma encodeURIComponent_chars (s : string) :
  Forall (fun c => uri_component_kept c = true \/ c = "%"%char)
         (chars (encodeURIComponent s)).
Proof.
  induction s as [|c s IH]; [constructor|].
  cbn [encodeURIComponent]. rewrite chars_app. apply Forall_app. split; [|exact IH].
  destruct (uri_component_kept c) eqn:E.
  - cbn [chars list_ascii_of_string]. constructor; [now left | constructor].
  - pose proof (nat_ascii_bounded c) as Hc.
    unfold percent_byte. cbn [chars list_ascii_of_string].
    constructor; [now right|].
    constructor;
      [left; apply hex_digit_kept; apply Nat.Div0.div_lt_upper_bound; exact Hc|].
    constructor;
      [left; apply hex_digit_kept; apply Nat.mod_upper_bound; discriminate|].
    constructor.
Qed.

Lemma kept_is_not_reserved (c : ascii) :
  uri_component_kept c = true \/ c = "%"%char -> in_chars c "&=#?/+ " = false.
Proof.
  intros [H | ->]; [|reflexivity].
  destruct c as [[] [] [] [] [] [] [] []]; try reflexivity; discriminate H.
Qed.

(** X12. Whatever the email, the URL of the people search is the fixed
    prefix followed by a query value without any of the characters
    & = # ? / + or space: the email cannot add a parameter or change the
    path. *)
Theorem search_url_is_safe (email : string) :
  exists value,
    search_url email = "https://a.klaviyo.com/api/v2/people/search?email=" ++ value
    /\ Forall (fun c => in_chars c "&=#?/+ " = false) (chars value).
Proof.
  exists (encodeURIComponent email). split; [reflexivity|].
  eapply Forall_impl; [|apply encodeURIComponent_chars].
  intros c Hc. now apply kept_is_not_reserved.
Qed.

(** ** What the Klaviyo executors make of a response *)

Ltac answer_with Hnet :=
  unfold_exec; cbn [fst snd network emit]; rewrite ?Hnet.


(** X14. When Klaviyo answers ok, each read tool returns the JSON of the
    response unchanged; when that JSON cannot be read, it returns the error
    as its text. *)
Theorem read_tools_return_the_json (w : World Store) (response : Response) :
  answers w response ->
  ok response = true ->
  let passed (label : string) :=
    Normal match json response with
           | Normal data => Data data
           | Throw e => Text (label ++ error_to_string e)
           end in
  fst (getKlaviyoLists_execute tt w) = passed "Error getting lists: "
  /\ (forall limit,
        fst (getKlaviyoCampaigns_execute limit w) = passed "Error getting campaigns: ")
  /\ (forall args,
        fst (getKlaviyoMetrics_execute args w) = passed "Error getting metrics: ")
  /\ (forall email,
        is_empty (api_key w) = false ->
        fst (getKlaviyoProfile_execute email w) = passed "Error getting profile: ").
Proof.
  intros Hnet Hok passed. subst passed. unfold answers in Hnet. cbv beta.
  repeat split; intros.
  - answer_with Hnet. rewrite Hok. cbn [fst snd]. now destruct (json response).
  - answer_with Hnet. rewrite Hok. cbn [fst snd]. now destruct (json response).
  - destruct args as [[metricId since] until]. answer_with Hnet. rewrite Hok.
    cbn [fst snd]. now destruct (json response).
  - answer_with Hnet. rewrite H. cbn [fst snd network emit]. rewrite Hnet, Hok.
    cbn [fst snd]. now destruct (json response).
Qed.

(** X15. An optional argument that is the empty string counts as left
    out: getKlaviyoMetrics and createKlaviyoList run the same with it as
    without it; and getKlaviyoCampaigns with no limit runs as with 50. *)
Theorem empty_arguments_count_as_left_out (w : World Store) :
  (forall metricId since until,
     getKlaviyoMetrics_execute (metricId, since, until) w
     = getKlaviyoMetrics_execute (nonempty metricId, nonempty since, nonempty until) w)
  /\ (forall name description,
        createKlaviyoList_confirmed (name, description) w
        = createKlaviyoList_confirmed (name, nonempty description) w)
  /\ getKlaviyoCampaigns_execute None w
     = getKlaviyoCampaigns_execute (Some (number_of_nat 50)) w.
Proof.
  split; [|split].
  - intros metricId since until.
    unfold getKlaviyoMetrics_execute, append_if, nonempty.
    destruct metricId as [m|]; [destruct (is_empty m) eqn:Em; rewrite ?Em|];
      (destruct since as [s|]; [destruct (is_empty s) eqn:Es; rewrite ?Es|]);
      (destruct until as [u|]; [destruct (is_empty u) eqn:Eu; rewrite ?Eu|]);
      reflexivity.
  - intros name description.
    unfold createKlaviyoList_confirmed, spread_if, nonempty.
    destruct description as [d|]; [destruct (is_empty d) eqn:Ed; rewrite ?Ed|];
      reflexivity.
  - reflexivity.
Qed.

(** X17. When Klaviyo answers ok, sendKlaviyoCampaign returns its success
    text, and the two creating executors read [data.id] of the response
    JSON: they return the success text with the text of that id (the word
    undefined when [data] has no id), and an error text when the JSON
    cannot be read, has no [data], or holds an id that has no text,
    although the request was accepted. *)
Theorem create_and_send_on_ok_response (w : World Store) (response : Response) :
  answers w response ->
  ok response = true ->
  let created (success : string -> string) (failure : string) :=
    Normal (Text match json response with
                 | Normal data =>
                     match get_prop (Some data) "data" with
                     | Normal inner =>
                         match get_prop inner "id" with
                         | Normal newId =>
                             match value_to_string newId with
                             | Normal idText => success idText
                             | Throw e => failure ++ error_to_string e
                             end
                         | Throw e => failure ++ error_to_string e
                         end
                     | Throw e => failure ++ error_to_string e
                     end
                 | Throw e => failure ++ error_to_string e
                 end) in
  (forall campaignId,
     fst (sendKlaviyoCampaign_confirmed campaignId w)
     = Normal (Text ("Campaign " ++ campaignId ++ " sent successfully")))
  /\ (forall params,
        fst (createKlaviyoProfile_confirmed params w)
        = created (fun newId => "Profile created successfully for " ++ email params
                                   ++ ". Profile ID: " ++ newId)
                  "Error creating profile: ")
  /\ (forall name description,
        fst (createKlaviyoList_confirmed (name, description) w)
        = created (fun newId => "List created successfully: " ++ name
                                   ++ ". List ID: " ++ newId)
                  "Error creating list: ").
Proof.
  intros Hnet Hok created. subst created. unfold answers in Hnet. cbv beta.
  split; [|split]; intros.
  - answer_with Hnet. rewrite Hok. reflexivity.
  - answer_with Hnet. rewrite Hok. cbn [fst snd].
    destruct (json response) as [data | e]; [|reflexivity]. cbn [fst snd].
    destruct (get_prop (Some data) "data") as [inner | e]; [|reflexivity]. cbn [fst snd].
    destruct (get_prop inner "id") as [newId | e]; [|reflexivity]. cbn [fst snd].
    destruct (value_to_string newId) as [idText | e]; reflexivity.
  - answer_with Hnet. rewrite Hok. cbn [fst snd].
    destruct (json response) as [data | e]; [|reflexivity]. cbn [fst snd].
    destruct (get_prop (Some data) "data") as [inner | e]; [|reflexivity]. cbn [fst snd].
    destruct (get_prop inner "id") as [newId | e]; [|reflexivity]. cbn [fst snd].
    destruct (value_to_string newId) as [idText | e]; reflexivity.
Qed.

(** X18. How many HTTP requests one run issues, whatever the network
    answers: exactly one for the three list, campaign and metric reads and
    for the executors that create or send; none or one for
    getKlaviyoProfile, none exactly when the key is missing; one or two for
    a two-step executor. Nothing is retried. *)
Theorem request_counts (w : World Store) :
  let count {A} (m : Exec Store A) := List.length (requests (issued m w)) in
  count (getKlaviyoLists_execute tt) = 1
  /\ (forall limit, count (getKlaviyoCampaigns_execute limit) = 1)
  /\ (forall args, count (getKlaviyoMetrics_execute args) = 1)
  /\ (forall email,
        count (getKlaviyoProfile_execute email) = if is_empty (api_key w) then 0 else 1)
  /\ (forall params, count (createKlaviyoProfile_confirmed params) = 1)
  /\ (forall params, count (createKlaviyoList_confirmed params) = 1)
  /\ (forall campaignId, count (sendKlaviyoCampaign_confirmed campaignId) = 1)
  /\ (forall params,
        1 <= count (updateKlaviyoProfile_confirmed params) <= 2)
  /\ (forall params,
        1 <= count (addProfileToList_confirmed params) <= 2)
  /\ (forall params,
        1 <= count (removeProfileFromList_confirmed params) <= 2).
Proof.
  intros count. subst count. cbv beta.
  repeat split; intros; run_exec; read_trace;
    rewrite ?api_key_emit in *;
    first [reflexivity | congruence | lia | auto].
Qed.

(** ** Where scheduleTask throws *)

(** X16. scheduleTask throws past the tool call exactly when [when.type]
    is outside the four types of the schema, and then before anything was
    done: for a type of the schema it completes with a text. An error that
    the call of [agent.schedule] itself raises is returned as the text
    "Error scheduling task: <error>". *)
Theorem scheduleTask_error_boundary (when : When) (description : string) (w : World Store) :
  (In (type when) schedule_types ->
   exists result, fst (scheduleTask_execute (when, description) w) = Normal (Text result))
  /\ (~ In (type when) schedule_types ->
      scheduleTask_execute (when, description) w
      = (Throw (Error "not a valid schedule input"), w))
  /\ (forall ag input e s',
        type when <> "no-schedule" ->
        agent w = Some ag ->
        scheduleTask_input when w = (Normal input, w) ->
        schedule ag input "executeTask" description (store w) = (Throw e, s') ->
        fst (scheduleTask_execute (when, description) w)
        = Normal (Text ("Error scheduling task: " ++ error_to_string e))).
Proof.
  split; [|split].
  - apply scheduleTask_never_throws.
  - apply scheduleTask_unknown_type_throws.
  - intros ag input e s'. apply scheduleTask_raised_error_is_text.
Qed.

End Registry.

(** * The properties on concrete runs *)

#[local] Existing Instance Fixture.host.

(** C3, on the code. The claim asks that an error arising while
    scheduling comes back as the tool's result text. Here the input passes
    the schema, the session fails the call with InvalidCronError, and the
    executor, which does not await the call, returns the text
    Task scheduled for type "cron" : every day. *)
Lemma scheduleTask_reports_failed_scheduling_as_scheduled :
  In (type Fixture.bad_cron) schedule_types
  /\ fst (schedule Fixture.session (InString "every day") "executeTask" "p"
            (store Fixture.start))
     = Normal (Rejected (mkError "InvalidCronError" ""))
  /\ fst (scheduleTask_execute (Fixture.bad_cron, "p") Fixture.start)
     = Normal (Text ("Task scheduled for type " ++ dquote ++ "cron" ++ dquote
                     ++ " : every day"))
  /\ store (snd (scheduleTask_execute (Fixture.bad_cron, "p") Fixture.start))
     = TaskDispatcher.empty.
Proof.
  split; [simpl; auto|]. split; [reflexivity|].
  rewrite (scheduleTask_drops_rejection
             Fixture.session Fixture.bad_cron "p" (InString "every day") Fixture.start
             (mkError "InvalidCronError" "") TaskDispatcher.empty);
    [split; reflexivity | discriminate | reflexivity | reflexivity | reflexivity].
Qed.

Lemma scheduleTask_no_schedule_witness :
  type Fixture.no_schedule = "no-schedule"
  /\ scheduleTask_execute (Fixture.no_schedule, "p") Fixture.start
     = (Normal (Text "Not a valid schedule input"), Fixture.start).
Proof.
  split; [reflexivity|].
  apply (scheduleTask_no_schedule Fixture.no_schedule "p" Fixture.start).
  reflexivity.
Defined.

Lemma scheduleTask_passes_matching_field_witness :
  agent Fixture.start = Some Fixture.session
  /\ schedule_calls (trace (snd (scheduleTask_execute (Fixture.delayed_30, "p") Fixture.start)))
     = [(InNumber 30, "executeTask", "p")]
  /\ trigger_kind (@InNumber Fixture.host 30) = kind_of_type "delayed".
Proof.
  split; [reflexivity|].
  destruct (scheduleTask_passes_matching_field
              Fixture.session Fixture.delayed_30 "p" Fixture.start eq_refl)
    as [_ [Hdelayed _]].
  destruct (Hdelayed eq_refl) as [[Hcall _] [Hshape _]].
  split; [exact Hcall|]. apply Hshape. discriminate.
Defined.

(** The claim C5 as stated fails: the schema accepts a delayed schedule
    without its delayInSeconds, and the tool then passes undefined as the
    trigger, which has the shape of no kind where the type asks for a
    delay; the session fails the call with InvalidTriggerError. *)
Lemma scheduleTask_passes_undefined_trigger :
  In (type Fixture.missing_delay) schedule_types
  /\ kind_of_type (type Fixture.missing_delay) = Some DELAYED
  /\ schedule_calls
       (trace (snd (scheduleTask_execute (Fixture.missing_delay, "p") Fixture.start)))
     = [(InUndefined, "executeTask", "p")]
  /\ trigger_kind (@InUndefined Fixture.host) = None
  /\ trigger_kind (@InUndefined Fixture.host) <> kind_of_type (type Fixture.missing_delay)
  /\ fst (schedule Fixture.session InUndefined "executeTask" "p" (store Fixture.start))
     = Normal (Rejected (mkError "InvalidTriggerError" "")).
Proof.
  split; [simpl; auto|]. split; [reflexivity|]. split; [reflexivity|].
  split; [reflexivity|]. split; [discriminate | reflexivity].
Qed.

(** The claim C6 as stated fails: the session assigned the id "1", and the
    tool returned a text that is not this id. *)
Lemma scheduleTask_result_is_not_the_schedule_id :
  fst (schedule Fixture.session (InNumber 30) "executeTask" "p" TaskDispatcher.empty)
  = Normal (Fulfilled "1")
  /\ fst (scheduleTask_execute (Fixture.delayed_30, "p") Fixture.start)
     = Normal (Text ("Task scheduled for type " ++ dquote ++ "delayed" ++ dquote ++ " : 30"))
  /\ fst (scheduleTask_execute (Fixture.delayed_30, "p") Fixture.start)
     <> Normal (Text "1").
Proof.
  split; [reflexivity|]. split; [reflexivity|]. discriminate.
Qed.

Lemma scheduleTask_returns_confirmation_text_witness :
  schedule Fixture.session (InNumber 30) "executeTask" "p" (store Fixture.start)
  = (Normal (Fulfilled "1"), store Fixture.one_scheduled)
  /\ fst (scheduleTask_execute (Fixture.delayed_30, "p") Fixture.start)
     = Normal (Text ("Task scheduled for type " ++ dquote ++ "delayed" ++ dquote ++ " : 30")).
Proof.
  split; [reflexivity|].
  rewrite (scheduleTask_returns_confirmation_text
             Fixture.session Fixture.delayed_30 "p" (@InNumber Fixture.host 30) Fixture.start
             "1" (store Fixture.one_scheduled));
    [reflexivity | discriminate | reflexivity | reflexivity | reflexivity].
Defined.

(** The claim C7 as stated fails: with nothing scheduled the session lists
    the empty sequence, and the tool returns a text, not that sequence. *)
Lemma getScheduledTasks_empty_is_not_a_sequence :
  fst (getSchedules Fixture.session (store Fixture.start)) = Normal (Some [])
  /\ fst (getScheduledTasks_execute tt Fixture.start)
     = Normal (Text "No scheduled tasks found.")
  /\ fst (getScheduledTasks_execute tt Fixture.start) <> Normal (Tasks []).
Proof.
  split; [reflexivity|]. split; [reflexivity|]. discriminate.
Qed.

Lemma getScheduledTasks_nothing_scheduled_witness :
  getSchedules Fixture.session (store Fixture.start) = (Normal (Some []), store Fixture.start)
  /\ fst (getScheduledTasks_execute tt Fixture.start)
     = Normal (Text "No scheduled tasks found.").
Proof.
  split; [reflexivity|].
  apply (getScheduledTasks_nothing_scheduled Fixture.session Fixture.start
           (store Fixture.start)); reflexivity.
Defined.

(** Cancelling the schedule "1" succeeds once and fails the second time;
    cancelling "7", which was never scheduled, fails at once. *)
Lemma cancelScheduledTask_absent_id_witness :
  fst (cancelScheduledTask_execute "1" Fixture.one_scheduled)
  = Normal (Text "Task 1 has been successfully canceled.")
  /\ fst (cancelScheduledTask_execute "1"
            (snd (cancelScheduledTask_execute "1" Fixture.one_scheduled)))
     = Normal (Text "Error canceling task 1: UnknownScheduleError")
  /\ fst (cancelScheduledTask_execute "7" Fixture.one_scheduled)
     = Normal (Text "Error canceling task 7: UnknownScheduleError").
Proof.
  split; [reflexivity|]. split.
  - exact (proj2 (cancelScheduledTask_absent_id
                    (fun _ => false) (String.eqb "0 * * * *") "1"
                    Fixture.one_scheduled eq_refl)).
  - exact (proj1 (cancelScheduledTask_absent_id
                    (fun _ => false) (String.eqb "0 * * * *") "7"
                    Fixture.one_scheduled eq_refl) eq_refl).
Defined.

Lemma getKlaviyoProfile_without_api_key_witness :
  KLAVIYO_API_KEY (Fixture.world None TaskDispatcher.empty) = None
  /\ fst (getKlaviyoProfile_execute "ada@example.com" (Fixture.world None TaskDispatcher.empty))
     = Normal (Text "Error getting profile: Error: KLAVIYO_API_KEY environment variable is not set")
  /\ requests (trace (snd (getKlaviyoProfile_execute "ada@example.com"
                            (Fixture.world None TaskDispatcher.empty)))) = [].
Proof.
  split; [reflexivity|].
  destruct (getKlaviyoProfile_without_api_key "ada@example.com"
              (Fixture.world None TaskDispatcher.empty) (or_introl eq_refl))
    as [Hresult [Hrequests _]].
  split; [exact Hresult | exact Hrequests].
Defined.

Lemma two_step_executors_not_found_witness :
  network Fixture.start (trace Fixture.start)
    (search_request "pk_test" "ada@example.com") = Normal Fixture.no_match
  /\ fst (updateKlaviyoProfile_confirmed (Fixture.profile "ada@example.com") Fixture.start)
     = Normal (Text "Error updating profile: Error: Profile not found for email: ada@example.com")
  /\ requests (trace (snd (removeProfileFromList_confirmed
                            ("ada@example.com", "L1") Fixture.start)))
     = [search_request "pk_test" "ada@example.com"].
Proof.
  split; [reflexivity|].
  destruct (two_step_executors_not_found (Fixture.profile "ada@example.com") "L1"
              Fixture.start Fixture.no_match eq_refl eq_refl eq_refl)
    as [_ [Hupdate [_ [_ [_ [_ Hremove]]]]]].
  split; [exact Hupdate | exact Hremove].
Defined.

(** ** The properties of the whole registry on concrete runs *)

Lemma auto_tools_never_mutate_witness :
  In ("getKlaviyoProfile", getKlaviyoProfile) (tools Fixture.Store)
  /\ requests (issued (getKlaviyoProfile_execute "ada@example.com") Fixture.start)
     = [search_request "pk_test" "ada@example.com"]
  /\ Forall (fun r => mutating r = false)
       (requests (issued (getKlaviyoProfile_execute "ada@example.com") Fixture.start)).
Proof.
  assert (Hin : In ("getKlaviyoProfile", @getKlaviyoProfile Fixture.host Fixture.Store)
                   (tools Fixture.Store)) by (simpl; auto 10).
  split; [exact Hin|]. split; [reflexivity|].
  exact (auto_tools_never_mutate "getKlaviyoProfile" getKlaviyoProfile Hin
           getKlaviyoProfile_execute eq_refl "ada@example.com" Fixture.start).
Defined.

Lemma confirmed_executors_mutate_at_most_once_witness :
  In "updateKlaviyoProfile" (keys (executions Fixture.Store))
  /\ List.length (requests (issued (updateKlaviyoProfile_confirmed
                                      (Fixture.profile "ada@example.com"))
                                   Fixture.finding)) = 2
  /\ List.length (filter mutating
                    (requests (issued (updateKlaviyoProfile_confirmed
                                         (Fixture.profile "ada@example.com"))
                                      Fixture.finding))) <= 1.
Proof.
  split; [simpl; auto 10|]. split; [reflexivity|].
  refine (confirmed_executors_mutate_at_most_once "updateKlaviyoProfile"
            {| run := updateKlaviyoProfile_confirmed |} _
            (Fixture.profile "ada@example.com") Fixture.finding).
  simpl; auto 10.
Defined.

(** Two profiles match; the update goes to the first, "P1". With an id
    that has no text the update is not sent. *)
Lemma two_step_success_witness :
  network Fixture.finding (trace Fixture.finding)
    (search_request "pk_test" "ada@example.com") = Normal Fixture.two_matches
  /\ fst (updateKlaviyoProfile_confirmed (Fixture.profile "ada@example.com") Fixture.finding)
     = Normal (Text "Profile updated successfully for ada@example.com")
  /\ map url (requests (issued (updateKlaviyoProfile_confirmed
                                  (Fixture.profile "ada@example.com"))
                               Fixture.finding))
     = ["https://a.klaviyo.com/api/v2/people/search?email=ada%40example.com";
        "https://a.klaviyo.com/api/profiles/P1/"]
  /\ fst (updateKlaviyoProfile_confirmed (Fixture.profile "ada@example.com")
            Fixture.odd_finding)
     = Normal (Text ("Error updating profile: TypeError: "
                     ++ "Cannot convert object to primitive value"))
  /\ requests (issued (updateKlaviyoProfile_confirmed (Fixture.profile "ada@example.com"))
                      Fixture.odd_finding)
     = [search_request "pk_test" "ada@example.com"].
Proof.
  split; [reflexivity|]. split; [|split; [reflexivity|]].
  - refine (proj1 (two_step_success (Fixture.profile "ada@example.com") "L1"
                     Fixture.finding Fixture.two_matches (JObj [("id", JStr "P1")])
                     [JObj [("id", JStr "P2")]] (Some (JStr "P1"))
                     eq_refl eq_refl eq_refl eq_refl) "P1" eq_refl _).
    exists Fixture.accepted. split; reflexivity.
  - destruct (proj2 (proj2 (proj2
               (two_step_success (Fixture.profile "ada@example.com") "L1"
                  Fixture.odd_finding Fixture.odd_match (JObj [("id", Fixture.odd_id)])
                  [] (Some Fixture.odd_id) eq_refl eq_refl eq_refl eq_refl)))
               (TypeError "Cannot convert object to primitive value") eq_refl)
      as [Hresult [Hrequests _]].
    split; [exact Hresult | exact Hrequests].
Defined.

Lemma cancelScheduledTask_reports_settlement_witness :
  agent Fixture.one_scheduled = Some Fixture.session
  /\ fst (cancelScheduledTask_execute "1" Fixture.one_scheduled)
     = Normal (Text "Task 1 has been successfully canceled.")
  /\ fst (cancelScheduledTask_execute "1" Fixture.raising)
     = Normal (Text "Error canceling task 1: Error: storage is down").
Proof.
  split; [reflexivity|]. split.
  - exact (proj1 (cancelScheduledTask_reports_settlement
                    Fixture.session "1" Fixture.one_scheduled eq_refl)).
  - exact (proj1 (cancelScheduledTask_reports_settlement
                    Fixture.raising_session "1" Fixture.raising eq_refl)).
Defined.

Lemma getScheduledTasks_reports_the_list_witness :
  agent Fixture.one_scheduled = Some Fixture.session
  /\ fst (getScheduledTasks_execute tt Fixture.one_scheduled)
     = Normal (Tasks [{| id := "1"; kind := DELAYED; trigger := DelaySeconds 30;
                         actionName := "executeTask"; payload := "p" |}]).
Proof.
  split; [reflexivity|].
  exact (getScheduledTasks_reports_the_list Fixture.session Fixture.one_scheduled eq_refl).
Defined.

Lemma scheduling_tools_without_agent_witness :
  agent Fixture.no_agent = None
  /\ fst (scheduleTask_execute (Fixture.delayed_30, "p") Fixture.no_agent)
     = Normal (Text ("Error scheduling task: TypeError: "
                     ++ "Cannot read properties of undefined (reading 'schedule')"))
  /\ fst (getScheduledTasks_execute tt Fixture.no_agent)
     = Normal (Text ("Error listing scheduled tasks: TypeError: "
                     ++ "Cannot read properties of undefined (reading 'getSchedules')")).
Proof.
  split; [reflexivity|].
  destruct (scheduling_tools_without_agent Fixture.delayed_30 "p" "1" Fixture.no_agent
              eq_refl) as [Hschedule [Hlist _]].
  split; [|exact Hlist].
  apply Hschedule. simpl. auto.
Defined.


Lemma read_tools_return_the_json_witness :
  ok Fixture.no_match = true
  /\ fst (getKlaviyoLists_execute tt Fixture.start) = Normal (Data (JArr []))
  /\ fst (getKlaviyoProfile_execute "ada@example.com" Fixture.start)
     = Normal (Data (JArr [])).
Proof.
  split; [reflexivity|].
  destruct (read_tools_return_the_json Fixture.start Fixture.no_match
              (fun _ _ => eq_refl) eq_refl)
    as [Hlists [_ [_ Hprofile]]].
  split; [exact Hlists | exact (Hprofile "ada@example.com" eq_refl)].
Defined.

(** The id of the response is read; a response without [data], or with an
    id that has no text, gives an error text although the request was
    accepted. *)
Lemma create_and_send_on_ok_response_witness :
  ok Fixture.created = true
  /\ fst (createKlaviyoProfile_confirmed (Fixture.profile "ada@example.com") Fixture.creating)
     = Normal (Text "Profile created successfully for ada@example.com. Profile ID: 01H")
  /\ fst (createKlaviyoProfile_confirmed (Fixture.profile "ada@example.com") Fixture.start)
     = Normal (Text ("Error creating profile: TypeError: "
                     ++ "Cannot read properties of undefined (reading 'id')"))
  /\ fst (createKlaviyoProfile_confirmed (Fixture.profile "ada@example.com")
            Fixture.odd_creating)
     = Normal (Text ("Error creating profile: TypeError: "
                     ++ "Cannot convert object to primitive value")).
Proof.
  split; [reflexivity|]. split; [|split].
  - exact (proj1 (proj2 (create_and_send_on_ok_response Fixture.creating Fixture.created
                           (fun _ _ => eq_refl) eq_refl))
                 (Fixture.profile "ada@example.com")).
  - exact (proj1 (proj2 (create_and_send_on_ok_response Fixture.start Fixture.no_match
                           (fun _ _ => eq_refl) eq_refl))
                 (Fixture.profile "ada@example.com")).
  - exact (proj1 (proj2 (create_and_send_on_ok_response Fixture.odd_creating
                           Fixture.odd_created (fun _ _ => eq_refl) eq_refl))
                 (Fixture.profile "ada@example.com")).
Defined.
